(** * ik_benchmarking launch scripts: a shallow embedding

    The two launch files of the repository,
    [launch/start_ik_benchmarking.launch.py] and
    [launch/start_ik_benchmarking_clients.launch.py], are translated
    function by function.  Python strings are [string]s, dictionaries
    with string keys are [gmap string _], exceptions and [print] are
    threaded through a small output-and-error monad, and whatever the
    scripts obtain from outside (the command line, the file system, the
    MoveIt configuration builder) is an explicit argument. *)

From Stdlib Require Import String Ascii List QArith.
From stdpp Require Import gmap strings list fin_maps.
Import ListNotations.

Local Open Scope string_scope.
Set Warnings "-register-all".

(** ** Python string primitives *)

Module PyStr.

(** [s.startswith(p)] *)
Definition startswith (s p : string) : bool := String.prefix p s.

(** [sep.join(parts)] *)
Fixpoint join (sep : string) (parts : list string) : string :=
  match parts with
  | [] => ""
  | [p] => p
  | p :: ps => p ++ sep ++ join sep ps
  end.

(** [s.split(sep)] for a non-empty separator: the occurrences of [sep]
    are found from the left and do not overlap.  [skip] counts the
    characters of a separator that was just recognised and are still
    to be dropped. *)
Fixpoint split_from (sep : string) (skip : nat) (s : string) : list string :=
  match s with
  | EmptyString => [""]
  | String c s' =>
      match skip with
      | S k => split_from sep k s'
      | O =>
          if String.prefix sep s
          then "" :: split_from sep (String.length sep - 1) s'
          else match split_from sep 0 s' with
               | t :: ts => String c t :: ts
               | [] => [String c ""]
               end
      end
  end.

Definition split (s sep : string) : list string := split_from sep 0 s.

(** [a > b] on strings: lexicographic on the characters. *)
Definition gt (a b : string) : bool :=
  match String.compare a b with
  | Gt => true
  | _ => false
  end.

(** The text of [s] from position [n] on: [s[n:]]. *)
Fixpoint drop (n : nat) (s : string) : string :=
  match n, s with
  | O, _ => s
  | S k, String _ s' => drop k s'
  | S _, EmptyString => ""
  end.

(** [s.partition(sep)], as an option: the text before and after the
    first occurrence of [sep], when there is one. *)
Fixpoint partition (sep : string) (s : string) : option (string * string) :=
  if String.prefix sep s
  then Some ("", drop (String.length sep) s)
  else match s with
       | EmptyString => None
       | String c s' =>
           match partition sep s' with
           | Some (a, b) => Some (String c a, b)
           | None => None
           end
       end.

(** [s.endswith(p)] *)
Definition endswith (s p : string) : bool :=
  Nat.leb (String.length p) (String.length s)
  && String.eqb (drop (String.length s - String.length p) s) p.

(** Does [s] end with the character [c]? *)
Fixpoint ends_with_char (c : ascii) (s : string) : bool :=
  match s with
  | EmptyString => false
  | String d EmptyString => Ascii.eqb c d
  | String _ s' => ends_with_char c s'
  end.

End PyStr.

(** ** Values, exceptions, output *)

(** A Python float: a finite double is a rational number. *)
Inductive float_val : Type :=
  | FNum (q : Q)
  | FInf (negative : bool)
  | FNan.

(** What [yaml.safe_load] builds: [None], [bool], [int], [float],
    [str], [bytes] (from [!!binary]), [date] and [datetime] (from
    [!!timestamp], kept as their text), [list], [set] and [dict].

    The scripts only ever look up string keys, and a key of another
    type never equals one: of a mapping, [YMap m] keeps the entries
    with a string key, and stands for a mapping that has at least one
    such entry or no entry at all ([YMap ∅] is [{}]); a mapping that is
    not empty but has no string key is [YMapNoStr].  The scripts never
    look inside a list or a set; a pair of an [!!omap] or [!!pairs]
    sequence is kept as a list of two. *)
Inductive yaml : Type :=
  | YNull
  | YBool (b : bool)
  | YInt (n : Z)
  | YFloat (f : float_val)
  | YStr (s : string)
  | YBytes (b : string)
  | YDate (text : string)
  | YList (l : list yaml)
  | YSet (l : list yaml)
  | YMap (m : gmap string yaml)
  | YMapNoStr.

(** Python truthiness, as used by [parent_data if parent_data else ...]. *)
Definition truthy (v : yaml) : bool :=
  match v with
  | YNull => false
  | YBool b => b
  | YInt n => negb (n =? 0)%Z
  | YFloat (FNum q) => negb (Qeq_bool q 0)
  | YFloat _ => true
  | YStr s => negb (String.eqb s "")
  | YBytes b => negb (String.eqb b "")
  | YDate _ => true
  | YList l => match l with [] => false | _ :: _ => true end
  | YSet l => match l with [] => false | _ :: _ => true end
  | YMap m => negb (bool_decide (m = ∅))
  | YMapNoStr => true
  end.

Inductive exn : Type :=
  | ValueError (msg : string)
  | AttributeError
  | KeyError (key : string)
  | TypeError
  | IndexError
  | SystemExit (code : Z)
  | ExternalError (what : string).

(** A line written by [print].  The f-string of
    [generate_launch_description] keeps the printed value symbolic. *)
Inductive out : Type :=
  | Line (text : string)
  | RunningFor (solver : yaml).

(** Computations that print and may raise. *)
Definition M (A : Type) : Type := (list out * (exn + A))%type.

Definition ret {A} (a : A) : M A := ([], inr a).
Definition raise {A} (e : exn) : M A := ([], inl e).
Definition print (o : out) : M unit := ([o], inr tt).
Definition lift {A} (r : exn + A) : M A := ([], r).

Definition bind {A B} (m : M A) (f : A -> M B) : M B :=
  match m with
  | (o, inl e) => (o, inl e)
  | (o, inr a) => let '(o', r) := f a in ((o ++ o')%list, r)
  end.

Notation "'let!' x ':=' m 'in' k" := (bind m (fun x => k))
  (at level 10, x name, m at level 100, k at level 200).
Notation "'run!' m 'in' k" := (bind m (fun _ => k))
  (at level 10, m at level 100, k at level 200).

(** [d.get(key)]: only a mapping has the method; an absent key gives
    [None]. *)
Definition py_get (d : yaml) (key : string) : M yaml :=
  match d with
  | YMap m => ret (default YNull (m !! key))
  | YMapNoStr => ret YNull
  | _ => raise AttributeError
  end.

(** [d[key]] on a dictionary. *)
Definition py_getitem (d : gmap string yaml) (key : string) : M yaml :=
  match d !! key with
  | Some v => ret v
  | None => raise (KeyError key)
  end.

(** [l[i]] on a list, for [i >= 0]. *)
Definition py_index {A} (l : list A) (i : nat) : M A :=
  match nth_error l i with
  | Some x => ret x
  | None => raise IndexError
  end.

(** A string method or a path operation applied to a value that is not
    a [str] raises [e]. *)
Definition as_str (e : exn) (v : yaml) : M string :=
  match v with
  | YStr s => ret s
  | _ => raise e
  end.

(** The receiver of [v.split("_")]: a [str] is split; [bytes] have the
    method but refuse a [str] separator; no other value has it. *)
Definition split_receiver (v : yaml) : M string :=
  match v with
  | YStr s => ret s
  | YBytes _ => raise TypeError
  | _ => raise AttributeError
  end.

(** [os.path.join(a, *ps)] on POSIX. *)
Definition path_join2 (path b : string) : string :=
  if PyStr.startswith b "/" then b
  else if String.eqb path "" || PyStr.ends_with_char "/" path then path ++ b
  else path ++ "/" ++ b.

Definition os_path_join (a : string) (ps : list string) : string :=
  fold_left path_join2 ps a.

(** ** Launch descriptions *)

(** [launch_ros.actions.Node] with the keyword arguments the scripts use. *)
Record Node : Type := mkNode {
  package : string;
  executable : string;
  output : string;
  parameters : list (gmap string yaml)
}.

(** The launch actions the scripts build.  [period] is in seconds. *)
Inductive Action : Type :=
  | NodeAction (n : Node)
  | TimerAction (period : Q) (actions : list Action)
  | DeclareLaunchArgument (name default_value description : string).

Definition LaunchDescription : Type := list Action.

(** The three parameter dictionaries of a [MoveItConfigs] object that
    the scripts read. *)
Record MoveItConfigs : Type := mkMoveItConfigs {
  robot_description : gmap string yaml;
  robot_description_semantic : gmap string yaml;
  robot_description_kinematics : gmap string yaml
}.

(** What the scripts take from outside: [sys.argv], the ament package
    index, the file system (open and [yaml.safe_load]),
    [MoveItConfigsBuilder] (its constructor, and the chain
    [.robot_description_kinematics(file_path=...).to_moveit_configs()])
    and the constructor of [launch_ros.actions.Node], which checks the
    parameters it is given and may refuse them: [Node_init package
    executable output parameters] is what it answers. *)
Record Env : Type := mkEnv {
  sys_argv : list string;
  get_package_share_directory : string -> exn + string;
  read_yaml : string -> exn + yaml;
  MoveItConfigsBuilder : string -> exn + unit;
  to_moveit_configs : string -> string -> exn + MoveItConfigs;
  Node_init : string -> string -> string -> list (gmap string yaml) -> exn + unit
}.

(** ** start_ik_benchmarking.launch.py *)

Module Main.

Section WithEnv.

Context (E : Env).

(** The loop over [sys.argv], on the remaining arguments. *)
Fixpoint scan_cmdline (args : list string) (arg_name : string) : M string :=
  match args with
  | [] => ret "0"
  | arg :: rest =>
      if PyStr.startswith arg (arg_name ++ ":=")
      then py_index (PyStr.split arg ":=") 1
      else scan_cmdline rest arg_name
  end.

Definition get_cmdline_argument (arg_name : string) : M string :=
  scan_cmdline (sys_argv E) arg_name.

(** The inner function of [load_benchmarking_config]; [config_data] is
    the variable it closes over, and an omitted [parent_data] is
    [YNull]. *)
Definition get_config_data (config_data : yaml) (key : string)
    (parent_data : yaml) : M yaml :=
  let source_data := if truthy parent_data then parent_data else config_data in
  let! value := py_get source_data key in
  match value with
  | YNull => raise (ValueError ("Missing required configuration key " ++ key))
  | _ => ret value
  end.

(** The body of [load_benchmarking_config] once the file is parsed. *)
Definition extract_config (config_data : yaml) : M (gmap string yaml) :=
  let! moveit_config_pkg := get_config_data config_data "moveit_config_pkg" YNull in
  let! move_group := get_config_data config_data "move_group" YNull in
  let! sample_size := get_config_data config_data "sample_size" YNull in
  let! ik_solvers_data := get_config_data config_data "ik_solvers" YNull in
  let! ik_solver_1_data := get_config_data config_data "ik_solver_1" ik_solvers_data in
  let! ik_solver_2_data := get_config_data config_data "ik_solver_2" ik_solvers_data in
  let! ik_solver_3_data := get_config_data config_data "ik_solver_3" ik_solvers_data in
  let! ik_solver_1 := py_get ik_solver_1_data "name" in
  let! ik_solver_2 := py_get ik_solver_2_data "name" in
  let! ik_solver_3 := py_get ik_solver_3_data "name" in
  let! ik_solver_1_kinematics_file := py_get ik_solver_1_data "kinematics_file" in
  let! ik_solver_2_kinematics_file := py_get ik_solver_2_data "kinematics_file" in
  let! ik_solver_3_kinematics_file := py_get ik_solver_3_data "kinematics_file" in
  ret (list_to_map
         [ ("moveit_config_pkg", moveit_config_pkg);
           ("move_group", move_group);
           ("sample_size", sample_size);
           ("ik_solver_1", ik_solver_1);
           ("ik_solver_2", ik_solver_2);
           ("ik_solver_3", ik_solver_3);
           ("ik_solver_1_kinematics_file", ik_solver_1_kinematics_file);
           ("ik_solver_2_kinematics_file", ik_solver_2_kinematics_file);
           ("ik_solver_3_kinematics_file", ik_solver_3_kinematics_file) ]).

Definition load_benchmarking_config
    (ik_benchmarking_pkg ik_benchmarking_config : string) : M (gmap string yaml) :=
  let! share := lift (get_package_share_directory E ik_benchmarking_pkg) in
  let file_path := os_path_join share ["config"; ik_benchmarking_config] in
  let! config_data := lift (read_yaml E file_path) in
  extract_config config_data.

Definition not_standard_message : string :=
  "Error: The package name {moveit_config_pkg} is not standard. Please use 'robot_moveit_config' or 'moveit_resources_robot_moveit_config'.".

Definition get_robot_name (moveit_config_pkg : string) : M string :=
  let parts := PyStr.split moveit_config_pkg "_" in
  run! (if Nat.ltb (List.length parts) 2
        then run! print (Line not_standard_message) in raise (SystemExit 1)
        else ret tt) in
  let package_name_prefix := PyStr.join "_" (firstn 2 parts) in
  if String.eqb package_name_prefix "moveit_resources"
  then ret (PyStr.join "_" (firstn 3 parts))
  else py_index parts 0.

(** Lines 122-126: the two dictionary keys chosen from the solver
    number, as the pair [(kinematics_file_key, ik_solver_key)]. *)
Definition solver_keys (ik_solver_value : string) : string * string :=
  if PyStr.gt ik_solver_value "0"
  then ("ik_solver_" ++ ik_solver_value ++ "_kinematics_file",
        "ik_solver_" ++ ik_solver_value)
  else ("", "").

Definition ik_solver_arg : Action :=
  DeclareLaunchArgument "ik_solver_number" "0"
    "IK solver number corresponding to the ik_benchmarking.yaml config file. Use values of 1, 2, and 3.".

(** [Node(package=..., executable=..., output=..., parameters=...)] *)
Definition make_node (package executable output : string)
    (parameters : list (gmap string yaml)) : M Node :=
  run! lift (Node_init E package executable output parameters) in
  ret (mkNode package executable output parameters).

Definition generate_launch_description : M LaunchDescription :=
  let! ik_solver_value := get_cmdline_argument "ik_solver_number" in
  let ik_benchmarking_pkg := "ik_benchmarking" in
  let ik_benchmarking_config := "ik_benchmarking.yaml" in
  let! benchmarking_config :=
    load_benchmarking_config ik_benchmarking_pkg ik_benchmarking_config in
  let! pkg := py_getitem benchmarking_config "moveit_config_pkg" in
  let! pkg_str := split_receiver pkg in
  let! robot_name := get_robot_name pkg_str in
  let '(kinematics_file_key, ik_solver_key) := solver_keys ik_solver_value in
  run! lift (MoveItConfigsBuilder E robot_name) in
  let! pkg' := py_getitem benchmarking_config "moveit_config_pkg" in
  let! pkg_str' := as_str TypeError pkg' in
  let! share := lift (get_package_share_directory E pkg_str') in
  let! kinematics_file := py_getitem benchmarking_config kinematics_file_key in
  let! kinematics_str := as_str TypeError kinematics_file in
  let file_path := os_path_join share ["config"; kinematics_str] in
  let! moveit_config := lift (to_moveit_configs E robot_name file_path) in
  let! move_group := py_getitem benchmarking_config "move_group" in
  let! sample_size := py_getitem benchmarking_config "sample_size" in
  let! benchmarking_server_node :=
    make_node "ik_benchmarking" "ik_benchmarking_server" "screen"
      [ robot_description moveit_config;
        robot_description_semantic moveit_config;
        robot_description_kinematics moveit_config;
        list_to_map [ ("move_group", move_group);
                      ("sample_size", sample_size) ] ] in
  let! solver := py_getitem benchmarking_config ik_solver_key in
  run! print (RunningFor solver) in
  let! move_group' := py_getitem benchmarking_config "move_group" in
  let! sample_size' := py_getitem benchmarking_config "sample_size" in
  let! ik_solver := py_getitem benchmarking_config ik_solver_key in
  let! benchmarking_client_node :=
    make_node "ik_benchmarking" "ik_benchmarking_client" "screen"
      [ robot_description moveit_config;
        robot_description_semantic moveit_config;
        robot_description_kinematics moveit_config;
        list_to_map [ ("move_group", move_group');
                      ("sample_size", sample_size');
                      ("ik_solver", ik_solver) ] ] in
  let delayed_benchmarking_client_node :=
    TimerAction 2 [NodeAction benchmarking_client_node] in
  ret [ NodeAction benchmarking_server_node;
        delayed_benchmarking_client_node;
        ik_solver_arg ].

End WithEnv.

End Main.

(** ** start_ik_benchmarking_clients.launch.py *)

Module Clients.

(** The local variables the loop over [sys.argv] updates. *)
Record Names : Type := mkNames {
  robot_name : string;
  moveit_config_pkg_name : string;
  kinematics_file_name : string
}.

Definition default_names : Names :=
  mkNames "iiwa" "iiwa_moveit_config" "kinematics.yaml".

(** Line 45: [moveit_config_pkg_name.split("_")[0]]. *)
Definition robot_name_of (moveit_config_pkg_name : string) : M string :=
  py_index (PyStr.split moveit_config_pkg_name "_") 0.

(** One iteration of the loop (lines 43-47). *)
Definition scan_step (st : Names) (arg : string) : M Names :=
  if PyStr.startswith arg "moveit_config_pkg:="
  then
    let! pkg := py_index (PyStr.split arg ":=") 1 in
    let! robot := robot_name_of pkg in
    ret (mkNames robot pkg (kinematics_file_name st))
  else if PyStr.startswith arg "kinematics_file:="
  then
    let! file := py_index (PyStr.split arg ":=") 1 in
    ret (mkNames (robot_name st) (moveit_config_pkg_name st) file)
  else ret st.

Fixpoint scan_args (st : Names) (args : list string) : M Names :=
  match args with
  | [] => ret st
  | arg :: rest => let! st' := scan_step st arg in scan_args st' rest
  end.

(** Lines 38-59: the names taken from the command line and the MoveIt
    configuration built from them. *)
Definition resolve_moveit_config (E : Env) : M (Names * MoveItConfigs) :=
  let! names := scan_args default_names (sys_argv E) in
  run! lift (MoveItConfigsBuilder E (robot_name names)) in
  let! share := lift (get_package_share_directory E (moveit_config_pkg_name names)) in
  let file_path := os_path_join share ["config"; kinematics_file_name names] in
  let! moveit_config := lift (to_moveit_configs E (robot_name names) file_path) in
  ret (names, moveit_config).

End Clients.

(** ** How the launch framework reads a description

    A description is visited when the launch starts: a node is started
    on the spot, the actions of a [TimerAction] are visited [period]
    seconds later, and declaring an argument starts nothing.
    [start_times t a] lists the nodes that visiting [a] at time [t]
    starts, each with its start time. *)
Fixpoint start_times (t : Q) (a : Action) : list (Q * Node) :=
  match a with
  | NodeAction n => [(t, n)]
  | TimerAction period actions => flat_map (start_times (t + period)) actions
  | DeclareLaunchArgument _ _ _ => []
  end.

Definition launch_at (t : Q) (ld : LaunchDescription) : list (Q * Node) :=
  flat_map (start_times t) ld.

(** ** Notions used in the statements *)

(** [a] and [b] are the text before and after the first occurrence of
    [sep] in [s]. *)
Definition first_cut (sep s a b : string) : Prop :=
  s = a ++ sep ++ b /\
  forall i, (i < String.length a)%nat ->
            String.prefix sep (PyStr.drop i s) = false.

Definition no_occurrence (sep s : string) : Prop :=
  forall i, String.prefix sep (PyStr.drop i s) = false.

(** [v] is the text of [s] between the first occurrence of [sep] and
    the next one, or the end of [s] when there is no next one. *)
Definition between_first_two (sep s v : string) : Prop :=
  exists a b, first_cut sep s a b /\
    ((no_occurrence sep b /\ v = b) \/ exists c, first_cut sep b v c).

(** The naming convention that the message of [get_robot_name] and the
    comment of the clients script describe:
    [<robot_name>_moveit_config], of which
    [moveit_resources_<robot>_moveit_config] is an instance. *)
Definition follows_convention (moveit_config_pkg : string) : bool :=
  PyStr.endswith moveit_config_pkg "_moveit_config".

(** What [get_robot_name] does on a name it refuses. *)
Definition refused : M string :=
  ([Line Main.not_standard_message], inl (SystemExit 1)).

(** A required key of the mapping [m]: bound to a value, which is not
    null. *)
Definition required (m : gmap string yaml) (key : string) (v : yaml) : Prop :=
  m !! key = Some v /\ v <> YNull.

(** The solver sub-entry [key] of [solvers] is a mapping that carries
    [name] and [kinematics_file]. *)
Definition solver_entry (solvers : gmap string yaml) (key : string)
    (name kinematics_file : yaml) : Prop :=
  exists entry,
    solvers !! key = Some (YMap entry) /\
    entry !! "name" = Some name /\
    entry !! "kinematics_file" = Some kinematics_file.

(** The values a configuration gives to the nine fields. *)
Record Fields : Type := mkFields {
  moveit_config_pkg : yaml;
  move_group : yaml;
  sample_size : yaml;
  ik_solver_1 : yaml;
  ik_solver_2 : yaml;
  ik_solver_3 : yaml;
  ik_solver_1_kinematics_file : yaml;
  ik_solver_2_kinematics_file : yaml;
  ik_solver_3_kinematics_file : yaml
}.

(** A well-formed configuration: a mapping with the three required
    scalar keys, and under [ik_solvers] a mapping with the three solver
    sub-entries. *)
Definition well_formed (config_data : yaml) (f : Fields) : Prop :=
  exists top solvers,
    config_data = YMap top /\
    required top "moveit_config_pkg" (moveit_config_pkg f) /\
    required top "move_group" (move_group f) /\
    required top "sample_size" (sample_size f) /\
    top !! "ik_solvers" = Some (YMap solvers) /\
    solver_entry solvers "ik_solver_1"
      (ik_solver_1 f) (ik_solver_1_kinematics_file f) /\
    solver_entry solvers "ik_solver_2"
      (ik_solver_2 f) (ik_solver_2_kinematics_file f) /\
    solver_entry solvers "ik_solver_3"
      (ik_solver_3 f) (ik_solver_3_kinematics_file f).

(** The configuration file is where [load_benchmarking_config] looks
    for it, and parses to [config_data]. *)
Definition installed (E : Env) (pkg file : string) (config_data : yaml) : Prop :=
  exists share,
    get_package_share_directory E pkg = inr share /\
    read_yaml E (os_path_join share ["config"; file]) = inr config_data.

(** A dictionary holds the nine fields and nothing else. *)
Definition holds_exactly (d : gmap string yaml) (f : Fields) : Prop :=
  size d = 9%nat /\
  d !! "moveit_config_pkg" = Some (moveit_config_pkg f) /\
  d !! "move_group" = Some (move_group f) /\
  d !! "sample_size" = Some (sample_size f) /\
  d !! "ik_solver_1" = Some (ik_solver_1 f) /\
  d !! "ik_solver_2" = Some (ik_solver_2 f) /\
  d !! "ik_solver_3" = Some (ik_solver_3 f) /\
  d !! "ik_solver_1_kinematics_file" = Some (ik_solver_1_kinematics_file f) /\
  d !! "ik_solver_2_kinematics_file" = Some (ik_solver_2_kinematics_file f) /\
  d !! "ik_solver_3_kinematics_file" = Some (ik_solver_3_kinematics_file f).

(** The node is passed the dictionary [d] among its parameters. *)
Definition has_parameters (n : Node) (d : gmap string yaml) : Prop :=
  In d (parameters n).

(** The node is passed the parameter [key], with value [v]. *)
Definition receives (n : Node) (key : string) (v : yaml) : Prop :=
  exists d, In d (parameters n) /\ d !! key = Some v.

(** The command line leaves [ik_solver_number] at its declared default:
    no entry gives it, or the first entry that does gives ["0"]. *)
Definition solver_number_defaulted (argv : list string) : Prop :=
  let given :=
    find (fun arg => PyStr.startswith arg "ik_solver_number:=") argv in
  given = None \/ given = Some "ik_solver_number:=0".

(** ** A concrete installation, for examples *)

Module Demo.

Definition entry (name file : string) : yaml :=
  YMap (list_to_map [ ("name", YStr name); ("kinematics_file", YStr file) ]).

Definition solvers : gmap string yaml :=
  list_to_map
    [ ("ik_solver_1", entry "KDL" "kdl_kinematics.yaml");
      ("ik_solver_2", entry "TRAC_IK" "trac_ik_kinematics.yaml");
      ("ik_solver_3", entry "pick_ik" "pick_ik_kinematics.yaml") ].

Definition top : gmap string yaml :=
  list_to_map
    [ ("moveit_config_pkg", YStr "moveit_resources_panda_moveit_config");
      ("move_group", YStr "panda_arm");
      ("sample_size", YInt 10000);
      ("ik_solvers", YMap solvers) ].

Definition config : yaml := YMap top.

Definition fields : Fields :=
  mkFields (YStr "moveit_resources_panda_moveit_config") (YStr "panda_arm")
    (YInt 10000) (YStr "KDL") (YStr "TRAC_IK") (YStr "pick_ik")
    (YStr "kdl_kinematics.yaml") (YStr "trac_ik_kinematics.yaml")
    (YStr "pick_ik_kinematics.yaml").

(** The same configuration, where the first solver entry has lost its
    [name]. *)
Definition config_without_name : yaml :=
  YMap (<["ik_solvers" :=
           YMap (<["ik_solver_1" :=
                    YMap {[ "kinematics_file" := YStr "kdl_kinematics.yaml" ]}]>
                   solvers)]> top).

Definition share_directory (pkg : string) : exn + string :=
  inr ("/opt/ros/share/" ++ pkg).

Definition read_file (cfg : yaml) (path : string) : exn + yaml :=
  if String.eqb path "/opt/ros/share/ik_benchmarking/config/ik_benchmarking.yaml"
  then inr cfg
  else inl (ExternalError "FileNotFoundError").

Definition moveit_configs (robot file_path : string) : exn + MoveItConfigs :=
  inr (mkMoveItConfigs
         {[ "robot_description" := YStr robot ]}
         {[ "robot_description_semantic" := YStr robot ]}
         {[ "robot_description_kinematics" := YStr file_path ]}).

Definition env (argv : list string) (cfg : yaml) : Env :=
  mkEnv argv share_directory (read_file cfg) (fun _ => inr tt) moveit_configs
    (fun _ _ _ _ => inr tt).

(** A launch of the second solver, and what it is expected to build. *)
Definition argv : list string := ["launch"; "ik_solver_number:=2"].

Definition loaded : gmap string yaml :=
  list_to_map
    [ ("moveit_config_pkg", YStr "moveit_resources_panda_moveit_config");
      ("move_group", YStr "panda_arm");
      ("sample_size", YInt 10000);
      ("ik_solver_1", YStr "KDL");
      ("ik_solver_2", YStr "TRAC_IK");
      ("ik_solver_3", YStr "pick_ik");
      ("ik_solver_1_kinematics_file", YStr "kdl_kinematics.yaml");
      ("ik_solver_2_kinematics_file", YStr "trac_ik_kinematics.yaml");
      ("ik_solver_3_kinematics_file", YStr "pick_ik_kinematics.yaml") ].

Definition moveit : MoveItConfigs :=
  mkMoveItConfigs
    {[ "robot_description" := YStr "moveit_resources_panda" ]}
    {[ "robot_description_semantic" := YStr "moveit_resources_panda" ]}
    {[ "robot_description_kinematics" :=
         YStr "/opt/ros/share/moveit_resources_panda_moveit_config/config/trac_ik_kinematics.yaml" ]}.

Definition server : Node :=
  mkNode "ik_benchmarking" "ik_benchmarking_server" "screen"
    [ robot_description moveit;
      robot_description_semantic moveit;
      robot_description_kinematics moveit;
      list_to_map [ ("move_group", YStr "panda_arm");
                    ("sample_size", YInt 10000) ] ].

Definition client : Node :=
  mkNode "ik_benchmarking" "ik_benchmarking_client" "screen"
    [ robot_description moveit;
      robot_description_semantic moveit;
      robot_description_kinematics moveit;
      list_to_map [ ("move_group", YStr "panda_arm");
                    ("sample_size", YInt 10000);
                    ("ik_solver", YStr "TRAC_IK") ] ].

Definition description : LaunchDescription :=
  [ NodeAction server; TimerAction 2 [NodeAction client]; Main.ik_solver_arg ].

End Demo.


(** ** Further notions: the loader's outcomes *)

(** The error [get_config_data] raises for [key]. *)
Definition missing_key_error (key : string) : exn :=
  ValueError ("Missing required configuration key " ++ key).


Definition present (m : gmap string yaml) (key : string) : Prop :=
  exists v, required m key v.

(** The keys that go through [get_config_data], in the order of the
    source: lines 54-60 and lines 61-63. *)
Definition top_level_keys : list string :=
  ["moveit_config_pkg"; "move_group"; "sample_size"; "ik_solvers"].

Definition solver_entry_keys : list string :=
  ["ik_solver_1"; "ik_solver_2"; "ik_solver_3"].

(** The keys of the dictionary [load_benchmarking_config] returns. *)
Definition nine_fields : list string :=
  ["moveit_config_pkg"; "move_group"; "sample_size";
   "ik_solver_1"; "ik_solver_2"; "ik_solver_3";
   "ik_solver_1_kinematics_file"; "ik_solver_2_kinematics_file";
   "ik_solver_3_kinematics_file"].

(** An error of [load_benchmarking_config]: one of its own two, or the
    one the package index or the file gave. *)
Definition loader_error (E : Env) (pkg file : string) (e : exn) : Prop :=
  e = AttributeError \/
  (exists key, In key (top_level_keys ++ solver_entry_keys) /\
               e = missing_key_error key) \/
  get_package_share_directory E pkg = inl e \/
  (exists share, get_package_share_directory E pkg = inr share /\
                 read_yaml E (os_path_join share ["config"; file]) = inl e).

Definition is_mapping (v : yaml) : bool :=
  match v with
  | YMap _ | YMapNoStr => true
  | _ => false
  end.

Definition is_bytes (v : yaml) : bool :=
  match v with
  | YBytes _ => true
  | _ => false
  end.

Definition is_str (v : yaml) : bool :=
  match v with
  | YStr _ => true
  | _ => false
  end.

(** The configuration of [well_formed], with the three solver entries
    at the top level instead of under [ik_solvers]. *)
Definition flat_config (top : gmap string yaml) (f : Fields) : Prop :=
  required top "moveit_config_pkg" (moveit_config_pkg f) /\
  required top "move_group" (move_group f) /\
  required top "sample_size" (sample_size f) /\
  solver_entry top "ik_solver_1"
    (ik_solver_1 f) (ik_solver_1_kinematics_file f) /\
  solver_entry top "ik_solver_2"
    (ik_solver_2 f) (ik_solver_2_kinematics_file f) /\
  solver_entry top "ik_solver_3"
    (ik_solver_3 f) (ik_solver_3_kinematics_file f).

(** The solver name and the kinematics file that the fields hold for
    the solver number [n]. *)
Definition solver_name (f : Fields) (n : string) : yaml :=
  if String.eqb n "1" then ik_solver_1 f
  else if String.eqb n "2" then ik_solver_2 f
  else ik_solver_3 f.

Definition solver_file (f : Fields) (n : string) : yaml :=
  if String.eqb n "1" then ik_solver_1_kinematics_file f
  else if String.eqb n "2" then ik_solver_2_kinematics_file f
  else ik_solver_3_kinematics_file f.

(** The dictionary of lines 74-84, from the nine values. *)
Definition fields_dict (f : Fields) : gmap string yaml :=
  list_to_map
    [ ("moveit_config_pkg", moveit_config_pkg f);
      ("move_group", move_group f);
      ("sample_size", sample_size f);
      ("ik_solver_1", ik_solver_1 f);
      ("ik_solver_2", ik_solver_2 f);
      ("ik_solver_3", ik_solver_3 f);
      ("ik_solver_1_kinematics_file", ik_solver_1_kinematics_file f);
      ("ik_solver_2_kinematics_file", ik_solver_2_kinematics_file f);
      ("ik_solver_3_kinematics_file", ik_solver_3_kinematics_file f) ].

(** The two nodes of the main script, for a MoveIt configuration and
    the three values taken from the configuration. *)
Definition server_node (mc : MoveItConfigs) (mg ss : yaml) : Node :=
  mkNode "ik_benchmarking" "ik_benchmarking_server" "screen"
    [ robot_description mc; robot_description_semantic mc;
      robot_description_kinematics mc;
      list_to_map [ ("move_group", mg); ("sample_size", ss) ] ].

Definition client_node (mc : MoveItConfigs) (mg ss solver : yaml) : Node :=
  mkNode "ik_benchmarking" "ik_benchmarking_client" "screen"
    [ robot_description mc; robot_description_semantic mc;
      robot_description_kinematics mc;
      list_to_map [ ("move_group", mg); ("sample_size", ss);
                    ("ik_solver", solver) ] ].

(** [sub in s] *)
Definition contains (s sub : string) : bool :=
  match PyStr.partition sub s with
  | Some _ => true
  | None => false
  end.

(** What [get_robot_name] leaves of a launch when it refuses the
    package name. *)
Definition launch_refused : M LaunchDescription :=
  ([Line Main.not_standard_message], inl (SystemExit 1)).

(** ** Further notions: the clients script *)

(** [arg.split(":=")[1]], with [""] standing for an index error. *)
Definition arg_value (arg : string) : string :=
  nth 1 (PyStr.split arg ":=") "".

(** [s.split("_")[0]], with [""] standing for an index error. *)
Definition first_token (s : string) : string :=
  nth 0 (PyStr.split s "_") "".

(** The last entry of the command line that starts with [prefix]. *)
Definition last_given (prefix : string) (args : list string) : option string :=
  find (fun arg => PyStr.startswith arg prefix) (rev args).

(** The parameters the main script passes to the server node and to
    the client node. *)
Definition server_parameters (mc : MoveItConfigs) (mg ss : yaml)
    : list (gmap string yaml) :=
  [ robot_description mc; robot_description_semantic mc;
    robot_description_kinematics mc;
    list_to_map [ ("move_group", mg); ("sample_size", ss) ] ].

Definition client_parameters (mc : MoveItConfigs) (mg ss solver : yaml)
    : list (gmap string yaml) :=
  [ robot_description mc; robot_description_semantic mc;
    robot_description_kinematics mc;
    list_to_map [ ("move_group", mg); ("sample_size", ss);
                  ("ik_solver", solver) ] ].

(** An error of [e] that comes from one of the collaborators of [E]. *)
Definition external_error (E : Env) (e : exn) : Prop :=
  (exists robot, MoveItConfigsBuilder E robot = inl e) \/
  (exists pkg, get_package_share_directory E pkg = inl e) \/
  (exists robot path, to_moveit_configs E robot path = inl e).

(** ** Further concrete configurations *)

Module Cases.

(** [ik_solvers] is an empty mapping and the solver entries stand at
    the top level. *)
Definition flat_top : gmap string yaml :=
  <["ik_solvers" := YMap ∅]> (Demo.solvers ∪ Demo.top).

(** The second solver entry has lost its [kinematics_file]. *)
Definition config_without_file : yaml :=
  YMap (<["ik_solvers" :=
           YMap (<["ik_solver_2" := YMap {[ "name" := YStr "TRAC_IK" ]}]>
                   Demo.solvers)]> Demo.top).

(** The package name has no underscore. *)
Definition config_one_token : yaml :=
  YMap (<["moveit_config_pkg" := YStr "panda"]> Demo.top).

Definition loaded_one_token : gmap string yaml :=
  <["moveit_config_pkg" := YStr "panda"]> Demo.loaded.

Definition loaded_without_file : gmap string yaml :=
  <["ik_solver_2_kinematics_file" := YNull]> Demo.loaded.

End Cases.
(** ** Facts about the string primitives *)

Example split_two : PyStr.split "a:=b:=c" ":=" = ["a"; "b"; "c"].
Proof. reflexivity. Qed.

Example split_trailing : PyStr.split "a:=" ":=" = ["a"; ""].
Proof. reflexivity. Qed.

Example split_none : PyStr.split "" "_" = [""].
Proof. reflexivity. Qed.

Example split_under : PyStr.split "_a__b_" "_" = [""; "a"; ""; "b"; ""].
Proof. reflexivity. Qed.

Example partition_ex : PyStr.partition ":=" "x:=y:=z" = Some ("x", "y:=z").
Proof. reflexivity. Qed.

Example join_ex : os_path_join "/opt/share/pkg" ["config"; "k.yaml"]
                  = "/opt/share/pkg/config/k.yaml".
Proof. reflexivity. Qed.

Section StringFacts.

Lemma app_nil_str (s : string) : "" ++ s = s.
Proof. reflexivity. Qed.

Lemma app_cons_str (c : ascii) (a b : string) :
  String c a ++ b = String c (a ++ b).
Proof. reflexivity. Qed.

Ltac str_norm := rewrite ?app_cons_str, ?app_nil_str.

Lemma app_assoc_str (a b c : string) : (a ++ b) ++ c = a ++ b ++ c.
Proof.
  induction a as [|x a IH]; str_norm; [reflexivity | now rewrite IH].
Qed.

Lemma str_length_app (a b : string) :
  String.length (a ++ b) = (String.length a + String.length b)%nat.
Proof.
  induction a as [|c a IH]; str_norm; simpl; [reflexivity | now rewrite IH].
Qed.

Lemma prefix_app (p q : string) : String.prefix p (p ++ q) = true.
Proof.
  induction p as [|c p IH]; str_norm; simpl.
  - now destruct q.
  - destruct (ascii_dec c c) as [_|Hne]; [exact IH | now destruct Hne].
Qed.

Lemma prefix_split (p s : string) :
  String.prefix p s = true -> s = p ++ PyStr.drop (String.length p) s.
Proof.
  revert s. induction p as [|c p IH]; intros s H; str_norm; simpl.
  - now destruct s.
  - destruct s as [|d s]; simpl in H; [discriminate|].
    destruct (ascii_dec c d) as [->|]; [|discriminate].
    simpl. f_equal. now apply IH.
Qed.

Lemma prefix_length (p s : string) :
  String.prefix p s = true -> (String.length p <= String.length s)%nat.
Proof.
  intros H. rewrite (prefix_split p s H), str_length_app. lia.
Qed.

Lemma prefix_nil_false (sep : string) :
  sep <> "" -> String.prefix sep "" = false.
Proof. now destruct sep. Qed.

Lemma split_from_skip (sep s : string) (k : nat) :
  (k <= String.length s)%nat ->
  PyStr.split_from sep k s = PyStr.split_from sep 0 (PyStr.drop k s).
Proof.
  revert k. induction s as [|c s IH]; intros k Hk.
  - destruct k; [reflexivity | simpl in Hk; lia].
  - destruct k as [|k]; [reflexivity|].
    simpl in Hk. change (PyStr.split_from sep k s
                         = PyStr.split_from sep 0 (PyStr.drop k s)).
    apply IH. lia.
Qed.

Lemma split_nonempty (sep s : string) (k : nat) : PyStr.split_from sep k s <> [].
Proof.
  revert k. induction s as [|c s IH]; intros k;
    cbn [PyStr.split_from]; [discriminate|].
  destruct k; [|apply IH].
  destruct (String.prefix sep (String c s)); [discriminate|].
  destruct (PyStr.split_from sep 0 s); discriminate.
Qed.

(** Splitting proceeds from one first occurrence to the next. *)
Lemma split_partition (sep s : string) :
  sep <> "" ->
  PyStr.split s sep =
  match PyStr.partition sep s with
  | None => [s]
  | Some (a, b) => a :: PyStr.split b sep
  end.
Proof.
  intros Hsep. unfold PyStr.split.
  induction s as [|c s IH].
  - cbn [PyStr.split_from PyStr.partition]. now rewrite prefix_nil_false.
  - cbn [PyStr.split_from PyStr.partition].
    destruct (String.prefix sep (String c s)) eqn:Hp.
    + f_equal. pose proof (prefix_length _ _ Hp) as Hlen.
      destruct sep as [|d sep]; [congruence|].
      simpl in Hlen. simpl. rewrite Nat.sub_0_r.
      apply split_from_skip. lia.
    + rewrite IH. destruct (PyStr.partition sep s) as [[a b]|]; reflexivity.
Qed.

Lemma partition_some (sep s a b : string) :
  PyStr.partition sep s = Some (a, b) -> first_cut sep s a b.
Proof.
  revert a b. induction s as [|c s IH]; intros a b H.
  - cbn [PyStr.partition] in H.
    destruct (String.prefix sep "") eqn:Hp; [|discriminate].
    injection H as <- <-. split; [|simpl; intros; lia].
    str_norm. now apply prefix_split.
  - cbn [PyStr.partition] in H.
    destruct (String.prefix sep (String c s)) eqn:Hp.
    + injection H as <- <-. split; [|simpl; intros; lia].
      str_norm. now apply prefix_split.
    + destruct (PyStr.partition sep s) as [[a' b']|]; [|discriminate].
      injection H as <- <-.
      destruct (IH a' b' eq_refl) as [Heq Hmin]. split.
      * str_norm. now rewrite <- Heq.
      * intros [|i] Hi; [exact Hp|]. simpl in Hi. simpl. apply Hmin. lia.
Qed.

Lemma partition_none (sep s : string) :
  PyStr.partition sep s = None -> no_occurrence sep s.
Proof.
  induction s as [|c s IH]; intros H i.
  - cbn [PyStr.partition] in H.
    destruct (String.prefix sep "") eqn:Hp; [discriminate|].
    now destruct i.
  - cbn [PyStr.partition] in H.
    destruct (String.prefix sep (String c s)) eqn:Hp; [discriminate|].
    destruct (PyStr.partition sep s) as [[a b]|] eqn:Hq; [discriminate|].
    destruct i as [|i]; [exact Hp | simpl; now apply IH].
Qed.

Lemma partition_found (sep p q : string) :
  exists a b, PyStr.partition sep (p ++ sep ++ q) = Some (a, b).
Proof.
  induction p as [|c p IH]; str_norm.
  - destruct (sep ++ q) eqn:Hs.
    + cbn [PyStr.partition]. destruct (String.prefix sep "") eqn:Hp; [eauto|].
      rewrite <- Hs, prefix_app in Hp. discriminate.
    + cbn [PyStr.partition]. rewrite <- Hs, prefix_app. eauto.
  - cbn [PyStr.partition].
    destruct (String.prefix sep (String c (p ++ sep ++ q))); [eauto|].
    destruct IH as (a & b & ->). eauto.
Qed.

End StringFacts.

(** ** Facts about the monad *)

Section MonadFacts.

Context {A B : Type}.

Lemma bind_ret (a : A) (f : A -> M B) : bind (ret a) f = f a.
Proof. unfold bind, ret. now destruct (f a). Qed.

Lemma bind_raise (e : exn) (f : A -> M B) : bind (raise e) f = raise e.
Proof. reflexivity. Qed.

Lemma bind_lift_ok (a : A) (f : A -> M B) : bind (lift (inr a)) f = f a.
Proof. apply bind_ret. Qed.

Lemma bind_lift_err (e : exn) (f : A -> M B) :
  bind (lift (inl e)) f = raise e.
Proof. reflexivity. Qed.

(** A computation that returns went through every step. *)
Lemma bind_ok_inv (m : M A) (f : A -> M B) (o : list out) (b : B) :
  bind m f = (o, inr b) ->
  exists o1 a o2, m = (o1, inr a) /\ f a = (o2, inr b) /\ o = (o1 ++ o2)%list.
Proof.
  unfold bind. destruct m as [o1 [e|a]]; [discriminate|].
  destruct (f a) as [o2 r] eqn:Hf. intros H. injection H as <- ->.
  now exists o1, a, o2.
Qed.

(** A step that raises makes the whole computation raise. *)
Lemma bind_err (m : M A) (f : A -> M B) (o : list out) (e : exn) :
  m = (o, inl e) -> bind m f = (o, inl e).
Proof. now intros ->. Qed.

End MonadFacts.

Lemma py_index_split_head (sep s : string) :
  exists p, py_index (PyStr.split s sep) 0 = ret p /\
            hd_error (PyStr.split s sep) = Some p.
Proof.
  unfold py_index, PyStr.split.
  pose proof (split_nonempty sep s 0) as Hne.
  destruct (PyStr.split_from sep 0 s) as [|p ps]; [congruence|].
  now exists p.
Qed.

(** ** The command-line scan *)

Lemma split_second (sep s p : string) :
  sep <> "" ->
  PyStr.startswith s (p ++ sep) = true ->
  exists v, py_index (PyStr.split s sep) 1 = ret v /\ between_first_two sep s v.
Proof.
  intros Hsep Hp. unfold PyStr.startswith in Hp.
  apply prefix_split in Hp. rewrite app_assoc_str in Hp.
  destruct (partition_found sep p
              (PyStr.drop (String.length (p ++ sep)) s)) as (a & b & Hab).
  rewrite <- Hp in Hab.
  rewrite (split_partition sep s Hsep), Hab.
  rewrite (split_partition sep b Hsep).
  apply partition_some in Hab.
  destruct (PyStr.partition sep b) as [[v c]|] eqn:Hb.
  - exists v. split; [reflexivity|].
    exists a, b. split; [exact Hab|]. right. exists c. now apply partition_some.
  - exists b. split; [reflexivity|].
    exists a, b. split; [exact Hab|]. left. split; [|reflexivity].
    now apply partition_none.
Qed.

Lemma scan_cmdline_spec (args : list string) (arg_name : string) :
  exists r, Main.scan_cmdline args arg_name = ret r /\
    match find (fun arg => PyStr.startswith arg (arg_name ++ ":=")) args with
    | Some arg => between_first_two ":=" arg r
    | None => r = "0"
    end.
Proof.
  induction args as [|arg rest IH]; simpl.
  - now exists "0".
  - destruct (PyStr.startswith arg (arg_name ++ ":=")) eqn:Hs; [|exact IH].
    now apply split_second with (p := arg_name).
Qed.

(** C10.  [get_cmdline_argument] always returns, whatever [sys.argv]
    and the argument name are: for the first entry that starts with the
    name followed by [":="] it returns the text between the first and
    the second occurrence of [":="] in that entry (up to the end of the
    entry when [":="] occurs once, so a value that itself contains
    [":="] is cut short), and ["0"] when no entry matches. *)
Theorem get_cmdline_argument_total (E : Env) (arg_name : string) :
  exists r, Main.get_cmdline_argument E arg_name = ret r /\
    match find (fun arg => PyStr.startswith arg (arg_name ++ ":="))
               (sys_argv E) with
    | Some arg => between_first_two ":=" arg r
    | None => r = "0"
    end.
Proof. apply scan_cmdline_spec. Qed.

Example cmdline_truncated :
  Main.get_cmdline_argument
    (Demo.env ["launch"; "ik_solver_number:=2:=3"; "ik_solver_number:=1"]
              Demo.config)
    "ik_solver_number" = ret "2".
Proof. reflexivity. Qed.

(** ** The robot name *)

Lemma split_single (sep s : string) :
  sep <> "" ->
  (List.length (PyStr.split s sep) < 2)%nat -> PyStr.split s sep = [s].
Proof.
  intros Hsep Hlen. rewrite (split_partition sep s Hsep) in *.
  destruct (PyStr.partition sep s) as [[a b]|]; [|reflexivity].
  exfalso. pose proof (split_nonempty sep b 0) as Hne.
  unfold PyStr.split in Hlen.
  destruct (PyStr.split_from sep 0 b); [congruence | simpl in Hlen; lia].
Qed.

Lemma get_robot_name_tokens (s p0 p1 : string) (rest : list string) :
  PyStr.split s "_" = p0 :: p1 :: rest ->
  Main.get_robot_name s =
  ret (if String.eqb (p0 ++ "_" ++ p1) "moveit_resources"
       then PyStr.join "_" (p0 :: p1 :: firstn 1 rest)
       else p0).
Proof.
  intros H. unfold Main.get_robot_name. rewrite H.
  change (Nat.ltb (List.length (p0 :: p1 :: rest)) 2) with false.
  cbv match. rewrite bind_ret.
  change (PyStr.join "_" (firstn 2 (p0 :: p1 :: rest))) with (p0 ++ "_" ++ p1).
  now destruct (String.eqb (p0 ++ "_" ++ p1) "moveit_resources").
Qed.

Lemma get_robot_name_refused (s : string) :
  (List.length (PyStr.split s "_") < 2)%nat ->
  Main.get_robot_name s = refused.
Proof.
  intros H. unfold Main.get_robot_name.
  apply Nat.ltb_lt in H. now rewrite H.
Qed.

Lemma join_longer (p0 p1 : string) (ps : list string) :
  PyStr.join "_" (p0 :: p1 :: ps) <> p0.
Proof.
  intros H. apply (f_equal String.length) in H.
  change (PyStr.join "_" (p0 :: p1 :: ps))
    with (p0 ++ "_" ++ PyStr.join "_" (p1 :: ps)) in H.
  rewrite !str_length_app in H. simpl in H. lia.
Qed.

(** C3.  The two package names of the convention: from
    ["robot_moveit_config"] the robot name is ["robot"], from
    ["moveit_resources_robot_moveit_config"] it is
    ["moveit_resources_robot"]; nothing is printed. *)
Theorem get_robot_name_standard :
  Main.get_robot_name "robot_moveit_config" = ret "robot" /\
  Main.get_robot_name "moveit_resources_robot_moveit_config"
  = ret "moveit_resources_robot".
Proof. split; reflexivity. Qed.

(** C6.  On a package name with at least two tokens between
    underscores, [p0], [p1] and the [rest], [get_robot_name] returns
    the first three tokens (as many of them as there are) joined by
    ["_"] when [p0 ++ "_" ++ p1] is ["moveit_resources"], and the first
    token [p0] otherwise. *)
Theorem get_robot_name_two_branch (s p0 p1 : string) (rest : list string) :
  PyStr.split s "_" = p0 :: p1 :: rest ->
  (PyStr.join "_" [p0; p1] = "moveit_resources" ->
   Main.get_robot_name s = ret (PyStr.join "_" (firstn 3 (p0 :: p1 :: rest)))) /\
  (PyStr.join "_" [p0; p1] <> "moveit_resources" ->
   Main.get_robot_name s = ret p0).
Proof.
  intros H. rewrite (get_robot_name_tokens s p0 p1 rest H).
  change (PyStr.join "_" [p0; p1]) with (p0 ++ "_" ++ p1).
  split; intros Hp.
  - now rewrite Hp.
  - apply String.eqb_neq in Hp. now rewrite Hp.
Qed.

Lemma get_robot_name_two_branch_witness :
  Main.get_robot_name "moveit_resources_panda_moveit_config"
  = ret "moveit_resources_panda" /\
  Main.get_robot_name "iiwa_moveit_config" = ret "iiwa".
Proof.
  split.
  - apply (get_robot_name_two_branch "moveit_resources_panda_moveit_config"
             "moveit" "resources" ["panda"; "moveit"; "config"]);
      reflexivity.
  - apply (get_robot_name_two_branch "iiwa_moveit_config"
             "iiwa" "moveit" ["config"]); [reflexivity|].
    vm_compute. discriminate.
Defined.

(** C5, as the code has it.  A package name with fewer than two tokens
    between underscores, that is a name without an underscore, makes
    [get_robot_name] print its message and exit with status 1; every
    name with two tokens or more is accepted and gets a robot name,
    whether or not it follows the naming convention. *)
Theorem get_robot_name_exits (s : string) :
  ((List.length (PyStr.split s "_") < 2)%nat ->
   Main.get_robot_name s = refused) /\
  ((2 <= List.length (PyStr.split s "_"))%nat ->
   exists r, Main.get_robot_name s = ret r).
Proof.
  split; [apply get_robot_name_refused|].
  intros H. destruct (PyStr.split s "_") as [|p0 [|p1 rest]] eqn:Hs;
    try (simpl in H; lia).
  rewrite (get_robot_name_tokens s p0 p1 rest Hs). eauto.
Qed.

Lemma get_robot_name_exits_witness :
  Main.get_robot_name "panda" = refused /\
  exists r, Main.get_robot_name "my_arm" = ret r.
Proof.
  split.
  - apply (proj1 (get_robot_name_exits "panda")). vm_compute. lia.
  - apply (proj2 (get_robot_name_exits "my_arm")). vm_compute. lia.
Defined.

(** C5, as the specification words it, fails: ["my_arm"] does not
    follow the naming convention, and [get_robot_name] returns ["my"]
    for it without printing or exiting. *)
Lemma get_robot_name_accepts_nonstandard :
  follows_convention "my_arm" = false /\
  Main.get_robot_name "my_arm" = ret "my".
Proof. split; reflexivity. Qed.

(** C9.  The clients script takes the first token of the package name,
    and so gives ["moveit"] where [get_robot_name] gives
    ["moveit_resources_robot"]; it accepts a name of one token, which
    [get_robot_name] refuses; and the two agree on a package name
    exactly when it has at least two tokens of which the first two are
    not ["moveit"] and ["resources"]. *)
Theorem robot_name_rules_differ :
  (Clients.robot_name_of "moveit_resources_robot_moveit_config" = ret "moveit" /\
   Main.get_robot_name "moveit_resources_robot_moveit_config"
   = ret "moveit_resources_robot") /\
  (forall s, (List.length (PyStr.split s "_") < 2)%nat ->
     Clients.robot_name_of s = ret s /\ Main.get_robot_name s = refused) /\
  (forall s,
     Main.get_robot_name s = Clients.robot_name_of s <->
     (2 <= List.length (PyStr.split s "_"))%nat /\
     PyStr.join "_" (firstn 2 (PyStr.split s "_")) <> "moveit_resources").
Proof.
  split; [split; reflexivity|]. split.
  - intros s H. split; [|now apply get_robot_name_refused].
    unfold Clients.robot_name_of.
    now rewrite (split_single "_" s ltac:(discriminate) H).
  - intros s. unfold Clients.robot_name_of.
    destruct (PyStr.split s "_") as [|p0 [|p1 rest]] eqn:Hs.
    + exfalso. now apply (split_nonempty "_" s 0).
    + rewrite get_robot_name_refused by (rewrite Hs; simpl; lia).
      simpl. split; [discriminate | intros [? _]; lia].
    + rewrite (get_robot_name_tokens s p0 p1 rest Hs).
      change (PyStr.join "_" (firstn 2 (p0 :: p1 :: rest)))
        with (p0 ++ "_" ++ p1).
      change (py_index (p0 :: p1 :: rest) 0) with (@ret string p0).
      destruct (String.eqb_spec (p0 ++ "_" ++ p1) "moveit_resources") as [He|Hne].
      * split.
        -- intros H. injection H as H. now apply join_longer in H.
        -- intros [_ H]. now destruct H.
      * split; [intros _; split; [simpl; lia | exact Hne] | reflexivity].
Qed.

Lemma robot_name_rules_differ_witness :
  Clients.robot_name_of "panda" = ret "panda" /\
  Main.get_robot_name "panda" = refused.
Proof.
  apply (proj1 (proj2 robot_name_rules_differ) "panda"). vm_compute. lia.
Defined.

(** ** Loading the configuration *)

Lemma get_config_data_top (top : gmap string yaml) (key : string) (v : yaml) :
  required top key v ->
  Main.get_config_data (YMap top) key YNull = ret v.
Proof.
  intros [Hk Hv]. unfold Main.get_config_data, py_get. simpl truthy. cbv match.
  rewrite Hk, bind_ret. simpl. now destruct v.
Qed.

Lemma get_config_data_parent (cfg : yaml) (m : gmap string yaml)
    (key : string) (v : yaml) :
  required m key v ->
  Main.get_config_data cfg key (YMap m) = ret v.
Proof.
  intros [Hk Hv]. unfold Main.get_config_data, py_get. simpl truthy.
  rewrite bool_decide_eq_false_2.
  - cbn [negb]. cbv match. rewrite Hk, bind_ret. simpl. now destruct v.
  - intros ->. now rewrite lookup_empty in Hk.
Qed.


Lemma extract_config_ok (config_data : yaml) (f : Fields) :
  well_formed config_data f ->
  exists d, Main.extract_config config_data = ret d /\ holds_exactly d f.
Proof.
  intros (top & solvers & -> & Hpkg & Hgroup & Hsize & Hsolvers
          & (e1 & He1 & Hn1 & Hk1) & (e2 & He2 & Hn2 & Hk2)
          & (e3 & He3 & Hn3 & Hk3)).
  unfold Main.extract_config.
  rewrite (get_config_data_top _ _ _ Hpkg), bind_ret.
  rewrite (get_config_data_top _ _ _ Hgroup), bind_ret.
  rewrite (get_config_data_top _ _ _ Hsize), bind_ret.
  rewrite (get_config_data_top top "ik_solvers" (YMap solvers)), bind_ret
    by (split; [exact Hsolvers | discriminate]).
  rewrite (get_config_data_parent _ solvers "ik_solver_1" (YMap e1)), bind_ret
    by (split; [exact He1 | discriminate]).
  rewrite (get_config_data_parent _ solvers "ik_solver_2" (YMap e2)), bind_ret
    by (split; [exact He2 | discriminate]).
  rewrite (get_config_data_parent _ solvers "ik_solver_3" (YMap e3)), bind_ret
    by (split; [exact He3 | discriminate]).
  unfold py_get. rewrite Hn1, Hn2, Hn3, Hk1, Hk2, Hk3. simpl default.
  rewrite !bind_ret. eexists. split; [reflexivity|].
  destruct f; simpl. repeat split; vm_compute; reflexivity.
Qed.

(** C1.  When the configuration file parses to a well-formed
    configuration (the three scalar keys carry a value, [ik_solvers] is
    a mapping whose entries [ik_solver_1], [ik_solver_2] and
    [ik_solver_3] are mappings with [name] and [kinematics_file]),
    [load_benchmarking_config] raises nothing, prints nothing, and
    returns a dictionary of exactly nine fields, each holding the value
    the configuration gives it. *)
Theorem load_benchmarking_config_ok (E : Env) (pkg file : string)
    (config_data : yaml) (f : Fields) :
  installed E pkg file config_data ->
  well_formed config_data f ->
  exists d, Main.load_benchmarking_config E pkg file = ret d /\
            holds_exactly d f.
Proof.
  intros (share & Hshare & Hread) Hwf.
  unfold Main.load_benchmarking_config.
  rewrite Hshare, bind_lift_ok, Hread, bind_lift_ok.
  now apply extract_config_ok.
Qed.

Lemma load_benchmarking_config_ok_witness :
  exists d,
    Main.load_benchmarking_config (Demo.env ["launch"] Demo.config)
      "ik_benchmarking" "ik_benchmarking.yaml" = ret d /\
    holds_exactly d Demo.fields.
Proof.
  apply (load_benchmarking_config_ok (Demo.env ["launch"] Demo.config)
           "ik_benchmarking" "ik_benchmarking.yaml" Demo.config Demo.fields).
  - exists "/opt/ros/share/ik_benchmarking". split; reflexivity.
  - exists Demo.top, Demo.solvers. split; [reflexivity|].
    repeat split; try discriminate; try (vm_compute; reflexivity);
      eexists; repeat split; vm_compute; reflexivity.
Defined.

(** C2, at a failing input.  The first solver entry of the
    configuration has no [name]: [load_benchmarking_config] raises
    nothing and returns the nine fields, with [None] for
    [ik_solver_1]. *)
Theorem load_benchmarking_config_missing_name :
  exists d,
    Main.load_benchmarking_config
      (Demo.env ["launch"] Demo.config_without_name)
      "ik_benchmarking" "ik_benchmarking.yaml" = ret d /\
    size d = 9%nat /\
    d !! "ik_solver_1" = Some YNull.
Proof. eexists. repeat split; vm_compute; reflexivity. Qed.

(** The seven keys that go through [get_config_data] are reported when
    they are missing. *)
Example missing_top_level_keys :
  Forall (fun key =>
    Main.load_benchmarking_config
      (Demo.env ["launch"] (YMap (delete key Demo.top)))
      "ik_benchmarking" "ik_benchmarking.yaml"
    = raise (ValueError ("Missing required configuration key " ++ key)))
  ["moveit_config_pkg"; "move_group"; "sample_size"; "ik_solvers"].
Proof. repeat constructor. Qed.

Example missing_solver_entries :
  Forall (fun key =>
    Main.load_benchmarking_config
      (Demo.env ["launch"]
         (YMap (<["ik_solvers" := YMap (delete key Demo.solvers)]> Demo.top)))
      "ik_benchmarking" "ik_benchmarking.yaml"
    = raise (ValueError ("Missing required configuration key " ++ key)))
  ["ik_solver_1"; "ik_solver_2"; "ik_solver_3"].
Proof. repeat constructor. Qed.

(** ** The launch description *)

Lemma py_getitem_ok_inv (d : gmap string yaml) (key : string)
    (o : list out) (v : yaml) :
  py_getitem d key = (o, inr v) -> d !! key = Some v /\ o = [].
Proof.
  unfold py_getitem. destruct (d !! key); [|discriminate].
  intros H. injection H as <- <-. now split.
Qed.

Lemma as_str_ok_inv (e : exn) (v : yaml) (o : list out) (s : string) :
  as_str e v = (o, inr s) -> v = YStr s /\ o = [].
Proof.
  destruct v; try discriminate. intros H. injection H as <- <-. now split.
Qed.

Lemma lift_ok_inv {A} (r : exn + A) (o : list out) (a : A) :
  lift r = (o, inr a) -> r = inr a /\ o = [].
Proof. intros H. injection H as <- ->. now split. Qed.

Tactic Notation "inv_bind" hyp(H) "as" ident(H1) ident(a) :=
  let o1 := fresh "o" in
  let o2 := fresh "o" in
  apply bind_ok_inv in H as (o1 & a & o2 & H1 & H & ->).

Lemma split_receiver_ok_inv (v : yaml) (o : list out) (s : string) :
  split_receiver v = (o, inr s) -> v = YStr s /\ o = [].
Proof.
  destruct v; try discriminate. intros H. injection H as <- <-. now split.
Qed.

Lemma make_node_ok_inv (E : Env) (package executable output : string)
    (parameters : list (gmap string yaml)) (o : list out) (n : Node) :
  Main.make_node E package executable output parameters = (o, inr n) ->
  n = mkNode package executable output parameters /\ o = [] /\
  Node_init E package executable output parameters = inr tt.
Proof.
  unfold Main.make_node.
  destruct (Node_init E package executable output parameters) as [e|[]];
    [discriminate|].
  rewrite bind_lift_ok. intros H. injection H as <- <-. now repeat split.
Qed.

Lemma generate_ok_inv (E : Env) (o : list out) (ld : LaunchDescription) :
  Main.generate_launch_description E = (o, inr ld) ->
  exists number cfg pkg robot share kinematics_file mc mg ss solver,
    snd (Main.get_cmdline_argument E "ik_solver_number") = inr number /\
    snd (Main.load_benchmarking_config E "ik_benchmarking" "ik_benchmarking.yaml")
    = inr cfg /\
    cfg !! "moveit_config_pkg" = Some (YStr pkg) /\
    get_package_share_directory E pkg = inr share /\
    cfg !! fst (Main.solver_keys number) = Some (YStr kinematics_file) /\
    to_moveit_configs E robot (os_path_join share ["config"; kinematics_file])
    = inr mc /\
    cfg !! "move_group" = Some mg /\
    cfg !! "sample_size" = Some ss /\
    cfg !! snd (Main.solver_keys number) = Some solver /\
    ld = [ NodeAction
             (mkNode "ik_benchmarking" "ik_benchmarking_server" "screen"
                [ robot_description mc;
                  robot_description_semantic mc;
                  robot_description_kinematics mc;
                  list_to_map [ ("move_group", mg); ("sample_size", ss) ] ]);
           TimerAction 2
             [ NodeAction
                 (mkNode "ik_benchmarking" "ik_benchmarking_client" "screen"
                    [ robot_description mc;
                      robot_description_semantic mc;
                      robot_description_kinematics mc;
                      list_to_map [ ("move_group", mg); ("sample_size", ss);
                                    ("ik_solver", solver) ] ]) ];
           Main.ik_solver_arg ].
Proof.
  unfold Main.generate_launch_description. intros H.
  inv_bind H as Hcmd number. inv_bind H as Hload cfg. inv_bind H as Hpkg pkg.
  inv_bind H as Hstr pkg_str. inv_bind H as Hrobot robot.
  destruct (Main.solver_keys number)
    as [kinematics_file_key ik_solver_key] eqn:Hkeys.
  inv_bind H as Hbuilder u. inv_bind H as Hpkg' pkg'. inv_bind H as Hstr' pkg_str'.
  inv_bind H as Hshare share. inv_bind H as Hkin kin. inv_bind H as Hkstr kin_str.
  inv_bind H as Hmc mc. inv_bind H as Hmg mg. inv_bind H as Hss ss.
  inv_bind H as Hserver server.
  inv_bind H as Hsolver solver. inv_bind H as Hprint u'. inv_bind H as Hmg' mg'.
  inv_bind H as Hss' ss'. inv_bind H as Hsolver' solver'.
  inv_bind H as Hclient client.
  apply make_node_ok_inv in Hserver as (-> & _ & _), Hclient as (-> & _ & _).
  apply py_getitem_ok_inv in Hpkg as [Hpkg _], Hpkg' as [Hpkg' _],
    Hkin as [Hkin _], Hmg as [Hmg _], Hss as [Hss _], Hsolver as [Hsolver _],
    Hmg' as [Hmg' _], Hss' as [Hss' _], Hsolver' as [Hsolver' _].
  apply split_receiver_ok_inv in Hstr as [-> _].
  apply as_str_ok_inv in Hstr' as [-> _], Hkstr as [-> _].
  apply lift_ok_inv in Hshare as [Hshare _], Hmc as [Hmc _].
  rewrite Hpkg in Hpkg'. injection Hpkg' as <-.
  rewrite Hmg in Hmg'. injection Hmg' as <-.
  rewrite Hss in Hss'. injection Hss' as <-.
  rewrite Hsolver in Hsolver'. injection Hsolver' as <-.
  injection H as _ <-.
  exists number, cfg, pkg_str, robot, share, kin_str, mc, mg, ss, solver.
  rewrite Hkeys, Hcmd, Hload. simpl fst. simpl snd.
  repeat split; assumption.
Qed.

(** Whatever the configuration, a dictionary that
    [load_benchmarking_config] returns has the nine fields and no
    other. *)
Lemma load_result_fields (E : Env) (pkg file : string) (d : gmap string yaml) :
  snd (Main.load_benchmarking_config E pkg file) = inr d ->
  exists f, holds_exactly d f /\ d !! "" = None.
Proof.
  destruct (Main.load_benchmarking_config E pkg file) as [o r] eqn:H.
  simpl. intros ->. unfold Main.load_benchmarking_config in H.
  inv_bind H as Hshare share. inv_bind H as Hread config_data.
  unfold Main.extract_config in H.
  inv_bind H as H1 v1. inv_bind H as H2 v2. inv_bind H as H3 v3.
  inv_bind H as H4 v4. inv_bind H as H5 v5. inv_bind H as H6 v6.
  inv_bind H as H7 v7. inv_bind H as H8 v8. inv_bind H as H9 v9.
  inv_bind H as H10 v10. inv_bind H as H11 v11. inv_bind H as H12 v12.
  inv_bind H as H13 v13.
  injection H as _ <-.
  exists (mkFields v1 v2 v3 v8 v9 v10 v11 v12 v13).
  repeat split; vm_compute; reflexivity.
Qed.

(** C4.  In a launch description that [generate_launch_description]
    returns, the server node stands directly in the description, under
    no condition and no timer, and the client node stands inside a
    [TimerAction] of period 2: when the description is launched at time
    [t], the server is started at [t] and the client at [t + 2], so the
    client never starts earlier than 2 seconds after the server. *)
Theorem client_delayed (E : Env) (o : list out) (ld : LaunchDescription) :
  Main.generate_launch_description E = (o, inr ld) ->
  exists server client,
    executable server = "ik_benchmarking_server" /\
    executable client = "ik_benchmarking_client" /\
    ld = [ NodeAction server; TimerAction 2 [NodeAction client];
           Main.ik_solver_arg ] /\
    (forall t, launch_at t ld = [ (t, server); ((t + 2)%Q, client) ]) /\
    (forall t ts tc,
       In (ts, server) (launch_at t ld) ->
       In (tc, client) (launch_at t ld) ->
       (ts + 2 <= tc)%Q).
Proof.
  intros H.
  destruct (generate_ok_inv E o ld H)
    as (number & cfg & pkg & robot & share & kin & mc & mg & ss & solver
        & _ & _ & _ & _ & _ & _ & _ & _ & _ & ->).
  eexists (mkNode _ _ _ _), (mkNode _ _ _ _).
  do 3 (split; [reflexivity|]).
  split; [intros t; reflexivity|].
  intros t ts tc Hs Hc. cbn in Hs, Hc.
  destruct Hs as [Hs | [Hs | []]]; [|discriminate Hs].
  destruct Hc as [Hc | [Hc | []]]; [discriminate Hc|].
  injection Hs as <-. injection Hc as <-. apply Qle_refl.
Qed.

Lemma scan_default (argv : list string) :
  solver_number_defaulted argv ->
  Main.scan_cmdline argv "ik_solver_number" = ret "0".
Proof.
  unfold solver_number_defaulted.
  change ("ik_solver_number:=") with ("ik_solver_number" ++ ":=").
  induction argv as [|arg rest IH]; [reflexivity|].
  cbn [find Main.scan_cmdline].
  destruct (PyStr.startswith arg ("ik_solver_number" ++ ":=")).
  - intros [H | H]; [discriminate|]. injection H as ->. reflexivity.
  - exact IH.
Qed.

(** C8.  When no entry of the command line gives [ik_solver_number], or
    the first that does gives ["0"], [get_cmdline_argument] returns
    ["0"], the two keys stay empty, and [generate_launch_description]
    returns no launch description: once the configuration is loaded,
    the robot name inferred and the package found, it raises [KeyError]
    on the empty key. *)
Theorem default_never_launches (E : Env) :
  solver_number_defaulted (sys_argv E) ->
  Main.get_cmdline_argument E "ik_solver_number" = ret "0" /\
  Main.solver_keys "0" = ("", "") /\
  (forall o ld, Main.generate_launch_description E <> (o, inr ld)) /\
  (forall cfg pkg robot share,
     Main.load_benchmarking_config E "ik_benchmarking" "ik_benchmarking.yaml"
     = ret cfg ->
     cfg !! "moveit_config_pkg" = Some (YStr pkg) ->
     Main.get_robot_name pkg = ret robot ->
     MoveItConfigsBuilder E robot = inr tt ->
     get_package_share_directory E pkg = inr share ->
     Main.generate_launch_description E = raise (KeyError "")).
Proof.
  intros Hdef. pose proof (scan_default _ Hdef) as Hcmd.
  fold (Main.get_cmdline_argument E "ik_solver_number") in Hcmd.
  split; [exact Hcmd|]. split; [reflexivity|]. split.
  - intros o ld H.
    destruct (generate_ok_inv E o ld H)
      as (number & cfg & pkg & robot & share & kin & mc & mg & ss & solver
          & Hnum & Hload & _ & _ & Hkin & _).
    rewrite Hcmd in Hnum. injection Hnum as <-.
    destruct (load_result_fields _ _ _ _ Hload) as (f & _ & Hnone).
    change (fst (Main.solver_keys "0")) with "" in Hkin. congruence.
  - intros cfg pkg robot share Hload Hpkg Hrobot Hbuilder Hshare.
    assert (Hnone : cfg !! "" = None).
    { destruct (load_result_fields E "ik_benchmarking" "ik_benchmarking.yaml"
                  cfg) as (f & _ & Hnone); [now rewrite Hload | exact Hnone]. }
    unfold Main.generate_launch_description.
    rewrite Hcmd, bind_ret, Hload, bind_ret.
    unfold py_getitem at 1. rewrite Hpkg, bind_ret.
    cbn [split_receiver]. rewrite bind_ret, Hrobot, bind_ret.
    change (Main.solver_keys "0") with ("", ""). cbv match.
    rewrite Hbuilder, bind_lift_ok.
    unfold py_getitem at 1. rewrite Hpkg, bind_ret.
    cbn [as_str]. rewrite bind_ret, Hshare, bind_lift_ok.
    unfold py_getitem at 1. rewrite Hnone. reflexivity.
Qed.

Example demo_launch :
  Main.generate_launch_description (Demo.env Demo.argv Demo.config)
  = ([RunningFor (YStr "TRAC_IK")], inr Demo.description).
Proof. vm_compute. reflexivity. Qed.

Lemma client_delayed_witness :
  Main.generate_launch_description (Demo.env Demo.argv Demo.config)
  = ([RunningFor (YStr "TRAC_IK")], inr Demo.description) /\
  launch_at 0 Demo.description = [ (0%Q, Demo.server); ((0 + 2)%Q, Demo.client) ].
Proof.
  assert (H : Main.generate_launch_description (Demo.env Demo.argv Demo.config)
              = ([RunningFor (YStr "TRAC_IK")], inr Demo.description))
    by (vm_compute; reflexivity).
  split; [exact H|].
  destruct (client_delayed _ _ _ H)
    as (server & client & _ & _ & Hld & Hat & _).
  rewrite (Hat 0%Q).
  unfold Demo.description in Hld. injection Hld as <- <-. reflexivity.
Defined.

Lemma default_never_launches_witness :
  solver_number_defaulted (sys_argv (Demo.env ["launch"] Demo.config)) /\
  Main.generate_launch_description (Demo.env ["launch"] Demo.config)
  = raise (KeyError "").
Proof.
  assert (H : solver_number_defaulted (sys_argv (Demo.env ["launch"] Demo.config)))
    by (left; reflexivity).
  split; [exact H|].
  apply (proj2 (proj2 (proj2
           (default_never_launches (Demo.env ["launch"] Demo.config) H)))
           Demo.loaded
           "moveit_resources_panda_moveit_config" "moveit_resources_panda"
           "/opt/ros/share/moveit_resources_panda_moveit_config");
    reflexivity.
Defined.

(** The loop of the clients script keeps the last package name it sees
    and its first token. *)
Example clients_scan :
  Clients.scan_args Clients.default_names
    ["launch"; "moveit_config_pkg:=moveit_resources_robot_moveit_config";
     "kinematics_file:=pick_ik.yaml"]
  = ret (Clients.mkNames "moveit" "moveit_resources_robot_moveit_config"
           "pick_ik.yaml").
Proof. reflexivity. Qed.

(** * Further properties *)

(** ** The loader *)

Lemma get_config_data_cases (config_data : yaml) (key : string)
    (parent_data : yaml) :
  (exists v, v <> YNull /\
             Main.get_config_data config_data key parent_data = ret v) \/
  Main.get_config_data config_data key parent_data = raise AttributeError \/
  Main.get_config_data config_data key parent_data
  = raise (missing_key_error key).
Proof.
  unfold Main.get_config_data, py_get.
  destruct (if truthy parent_data then parent_data else config_data);
    try (right; left; reflexivity); [|right; right; reflexivity].
  rewrite bind_ret.
  destruct (m !! key) as [v|]; [|right; right; reflexivity].
  destruct v; try (left; eexists; split; [|reflexivity]; discriminate).
  right; right; reflexivity.
Qed.

Lemma py_get_cases (d : yaml) (key : string) :
  (exists v, py_get d key = ret v) \/ py_get d key = raise AttributeError.
Proof. destruct d; simpl; eauto. Qed.

Lemma get_config_data_falsy (config_data : yaml) (key : string) (parent : yaml) :
  truthy parent = false ->
  Main.get_config_data config_data key parent
  = Main.get_config_data config_data key YNull.
Proof. unfold Main.get_config_data. now intros ->. Qed.


Ltac config_step :=
  match goal with
  | |- context [bind (Main.get_config_data ?c ?k ?p) _] =>
      destruct (get_config_data_cases c k p) as [(? & ? & ->) | [-> | ->]];
      [ rewrite bind_ret
      | rewrite bind_raise; split; [reflexivity | left; reflexivity]
      | rewrite bind_raise; split; [reflexivity|];
        right; left; exists k; split; [simpl; tauto | reflexivity] ]
  | |- context [bind (py_get ?d ?k) _] =>
      destruct (py_get_cases d k) as [(? & ->) | ->];
      [ rewrite bind_ret
      | rewrite bind_raise; split; [reflexivity | left; reflexivity] ]
  end.

Lemma extract_config_outcome (E : Env) (pkg file : string) (config_data : yaml) :
  fst (Main.extract_config config_data) = [] /\
  match snd (Main.extract_config config_data) with
  | inr d => exists f, d = fields_dict f
  | inl e => loader_error E pkg file e
  end.
Proof.
  unfold Main.extract_config, loader_error.
  do 13 config_step.
  split; [reflexivity|]. cbn [snd ret].
  match goal with
  | |- exists f, list_to_map
         [(_, ?a); (_, ?b); (_, ?c); (_, ?d); (_, ?e); (_, ?g); (_, ?h);
          (_, ?i); (_, ?j)] = _ =>
      exists (mkFields a b c d e g h i j)
  end.
  reflexivity.
Qed.

Lemma fields_dict_holds (f : Fields) : holds_exactly (fields_dict f) f.
Proof. destruct f. repeat split; vm_compute; reflexivity. Qed.

Lemma fields_dict_keys (f : Fields) (key : string) (v : yaml) :
  fields_dict f !! key = Some v -> In key nine_fields.
Proof.
  intros H. apply elem_of_list_to_map_2 in H.
  repeat (apply elem_of_cons in H as [H | H];
          [injection H as -> _; simpl; tauto|]).
  now apply elem_of_nil in H.
Qed.

Lemma load_outcome (E : Env) (pkg file : string) :
  fst (Main.load_benchmarking_config E pkg file) = [] /\
  match snd (Main.load_benchmarking_config E pkg file) with
  | inr d => exists f, d = fields_dict f
  | inl e => loader_error E pkg file e
  end.
Proof.
  unfold Main.load_benchmarking_config.
  destruct (get_package_share_directory E pkg) as [e|share] eqn:Hshare.
  { split; [reflexivity|]. right; right; left. exact Hshare. }
  rewrite bind_lift_ok.
  destruct (read_yaml E (os_path_join share ["config"; file]))
    as [e|config_data] eqn:Hread.
  { split; [reflexivity|]. right; right; right. now exists share. }
  rewrite bind_lift_ok.
  apply extract_config_outcome.
Qed.

(** X1.  Whatever the installation and the file hold,
    [load_benchmarking_config] prints nothing and ends in one of three
    ways: with a dictionary of exactly the nine fields; with its own
    [AttributeError] or its [ValueError] naming one of the seven keys
    that go through [get_config_data]; or with the error that the
    package index or reading the file gave. *)
Theorem load_benchmarking_config_outcomes (E : Env) (pkg file : string) :
  fst (Main.load_benchmarking_config E pkg file) = [] /\
  match snd (Main.load_benchmarking_config E pkg file) with
  | inr d => exists f, holds_exactly d f
  | inl e => loader_error E pkg file e
  end.
Proof.
  destruct (load_outcome E pkg file) as [Ho Hr]. split; [exact Ho|].
  destruct (snd (Main.load_benchmarking_config E pkg file)) as [e|d];
    [exact Hr|].
  destruct Hr as (f & ->). exists f. apply fields_dict_holds.
Qed.

Lemma load_installed (E : Env) (pkg file : string) (config_data : yaml) :
  installed E pkg file config_data ->
  Main.load_benchmarking_config E pkg file = Main.extract_config config_data.
Proof.
  intros (share & Hshare & Hread). unfold Main.load_benchmarking_config.
  now rewrite Hshare, bind_lift_ok, Hread, bind_lift_ok.
Qed.

Lemma present_top (top : gmap string yaml) (key : string) :
  present top key ->
  exists v, Main.get_config_data (YMap top) key YNull = ret v.
Proof. intros (v & Hv). exists v. now apply get_config_data_top. Qed.


Ltac use_present H :=
  let v := fresh "v" in
  let Hv := fresh "Hv" in
  apply present_top in H as (v & Hv); rewrite Hv, bind_ret; clear Hv.







Lemma solver_entry_get (cfg : yaml) (m : gmap string yaml) (key : string)
    (name file : yaml) :
  solver_entry m key name file ->
  exists entry,
    required m key (YMap entry) /\
    py_get (YMap entry) "name" = ret name /\
    py_get (YMap entry) "kinematics_file" = ret file.
Proof.
  intros (entry & He & Hn & Hf). exists entry.
  unfold py_get. rewrite Hn, Hf. repeat split; [exact He | discriminate].
Qed.

(** X4.  When [ik_solvers] is bound to a value that is not null but
    counts as false ([{}], [[]], [0], [""], [false]), the three solver
    entries are looked up at the top level of the configuration
    instead: a configuration that carries them there loads, with the
    nine fields taken from the top-level entries. *)
Theorem load_falsy_ik_solvers (E : Env) (pkg file : string)
    (top : gmap string yaml) (v : yaml) (f : Fields) :
  installed E pkg file (YMap top) ->
  top !! "ik_solvers" = Some v ->
  v <> YNull ->
  truthy v = false ->
  flat_config top f ->
  exists d, Main.load_benchmarking_config E pkg file = ret d /\
            holds_exactly d f.
Proof.
  intros Hinst Hv Hnull Hfalse (Hpkg & Hgroup & Hsize & H1 & H2 & H3).
  rewrite (load_installed _ _ _ _ Hinst). unfold Main.extract_config.
  rewrite (get_config_data_top _ _ _ Hpkg), bind_ret.
  rewrite (get_config_data_top _ _ _ Hgroup), bind_ret.
  rewrite (get_config_data_top _ _ _ Hsize), bind_ret.
  rewrite (get_config_data_top top "ik_solvers" v), bind_ret by now split.
  rewrite !(get_config_data_falsy _ _ v Hfalse).
  apply (solver_entry_get (YMap top)) in H1 as (e1 & He1 & Hn1 & Hf1).
  apply (solver_entry_get (YMap top)) in H2 as (e2 & He2 & Hn2 & Hf2).
  apply (solver_entry_get (YMap top)) in H3 as (e3 & He3 & Hn3 & Hf3).
  rewrite (get_config_data_top _ _ _ He1), bind_ret.
  rewrite (get_config_data_top _ _ _ He2), bind_ret.
  rewrite (get_config_data_top _ _ _ He3), bind_ret.
  rewrite Hn1, bind_ret, Hn2, bind_ret, Hn3, bind_ret.
  rewrite Hf1, bind_ret, Hf2, bind_ret, Hf3, bind_ret.
  eexists. split; [reflexivity|].
  destruct f; simpl. repeat split; vm_compute; reflexivity.
Qed.

Lemma load_falsy_ik_solvers_witness :
  exists d,
    Main.load_benchmarking_config
      (Demo.env ["launch"] (YMap Cases.flat_top))
      "ik_benchmarking" "ik_benchmarking.yaml" = ret d /\
    holds_exactly d Demo.fields.
Proof.
  apply (load_falsy_ik_solvers _ _ _ Cases.flat_top (YMap ∅) Demo.fields).
  - exists "/opt/ros/share/ik_benchmarking". split; reflexivity.
  - reflexivity.
  - discriminate.
  - reflexivity.
  - repeat split; try discriminate; try reflexivity;
      eexists; repeat split; reflexivity.
Defined.

(** X5.  A configuration document that is not a mapping (an empty file
    parses to null, a YAML list, a scalar) makes
    [load_benchmarking_config] raise [AttributeError], not the
    [ValueError] that names a key. *)
Theorem load_not_a_mapping (E : Env) (pkg file : string) (config_data : yaml) :
  installed E pkg file config_data ->
  is_mapping config_data = false ->
  Main.load_benchmarking_config E pkg file = raise AttributeError.
Proof.
  intros Hinst Hmap. rewrite (load_installed _ _ _ _ Hinst).
  destruct config_data; try discriminate; reflexivity.
Qed.

Lemma load_not_a_mapping_witness :
  Main.load_benchmarking_config (Demo.env ["launch"] YNull)
    "ik_benchmarking" "ik_benchmarking.yaml" = raise AttributeError.
Proof.
  apply (load_not_a_mapping _ _ _ YNull); [|reflexivity].
  exists "/opt/ros/share/ik_benchmarking". split; reflexivity.
Defined.

(** X6.  When the three scalar keys are there and the three solver
    entries are bound to values that are not null, but one of the
    entries is not a mapping, [load_benchmarking_config] raises
    [AttributeError]. *)
Theorem load_entry_not_a_mapping (E : Env) (pkg file : string)
    (top solvers : gmap string yaml) (v1 v2 v3 : yaml) :
  installed E pkg file (YMap top) ->
  Forall (present top) ["moveit_config_pkg"; "move_group"; "sample_size"] ->
  top !! "ik_solvers" = Some (YMap solvers) ->
  required solvers "ik_solver_1" v1 ->
  required solvers "ik_solver_2" v2 ->
  required solvers "ik_solver_3" v3 ->
  is_mapping v1 && is_mapping v2 && is_mapping v3 = false ->
  Main.load_benchmarking_config E pkg file = raise AttributeError.
Proof.
  intros Hinst Htop Hsolvers H1 H2 H3 Hmap.
  rewrite (load_installed _ _ _ _ Hinst). unfold Main.extract_config.
  apply Forall_cons in Htop as [Hp1 Htop].
  apply Forall_cons in Htop as [Hp2 Htop].
  apply Forall_cons in Htop as [Hp3 _].
  use_present Hp1. use_present Hp2. use_present Hp3.
  rewrite (get_config_data_top top "ik_solvers" (YMap solvers)), bind_ret
    by (split; [exact Hsolvers | discriminate]).
  rewrite (get_config_data_parent _ _ _ _ H1), bind_ret.
  rewrite (get_config_data_parent _ _ _ _ H2), bind_ret.
  rewrite (get_config_data_parent _ _ _ _ H3), bind_ret.
  destruct v1; try reflexivity;
    destruct v2; try reflexivity;
    destruct v3; try reflexivity;
    discriminate Hmap.
Qed.

Lemma load_entry_not_a_mapping_witness :
  Main.load_benchmarking_config
    (Demo.env ["launch"]
       (YMap (<["ik_solvers" :=
                 YMap (<["ik_solver_3" := YStr "pick_ik"]> Demo.solvers)]>
                Demo.top)))
    "ik_benchmarking" "ik_benchmarking.yaml" = raise AttributeError.
Proof.
  apply (load_entry_not_a_mapping _ _ _
           (<["ik_solvers" :=
               YMap (<["ik_solver_3" := YStr "pick_ik"]> Demo.solvers)]>
              Demo.top)
           (<["ik_solver_3" := YStr "pick_ik"]> Demo.solvers)
           (Demo.entry "KDL" "kdl_kinematics.yaml")
           (Demo.entry "TRAC_IK" "trac_ik_kinematics.yaml")
           (YStr "pick_ik")).
  - exists "/opt/ros/share/ik_benchmarking". split; reflexivity.
  - repeat constructor; eexists; (split; [reflexivity | discriminate]).
  - reflexivity.
  - split; [reflexivity | discriminate].
  - split; [reflexivity | discriminate].
  - split; [reflexivity | discriminate].
  - reflexivity.
Defined.

(** ** The robot name, in general *)

Lemma no_occurrence_tail (sep : string) (c : ascii) (a : string) :
  no_occurrence sep (String c a) -> no_occurrence sep a.
Proof. intros H i. exact (H (S i)). Qed.

(** A one-character separator is first found right after a text that
    does not hold it. *)
Lemma partition_char (c : ascii) (a b : string) :
  no_occurrence (String c "") a ->
  PyStr.partition (String c "") (a ++ String c "" ++ b) = Some (a, b).
Proof.
  induction a as [|x a IH]; intros Hno.
  - rewrite app_nil_str, app_cons_str, app_nil_str.
    cbn [PyStr.partition String.prefix].
    destruct (ascii_dec c c) as [_|Hne]; [|now destruct Hne].
    now destruct b.
  - rewrite app_cons_str. cbn [PyStr.partition].
    assert (Hx : String.prefix (String c "") (String x (a ++ String c "" ++ b))
                 = false).
    { pose proof (Hno 0%nat) as H0. cbn [PyStr.drop String.prefix] in H0.
      cbn [String.prefix].
      destruct (ascii_dec c x); [|reflexivity].
      now destruct a. }
    rewrite Hx, (IH (no_occurrence_tail _ _ _ Hno)). reflexivity.
Qed.

Lemma split_first_token (a b : string) :
  no_occurrence "_" a ->
  PyStr.split (a ++ "_" ++ b) "_" = a :: PyStr.split b "_".
Proof.
  intros Hno. rewrite (split_partition "_" (a ++ "_" ++ b)) by discriminate.
  now rewrite (partition_char "_"%char a b Hno).
Qed.

Lemma first_cut_unique (a b a' b' : string) :
  no_occurrence "_" a -> no_occurrence "_" a' ->
  a ++ "_" ++ b = a' ++ "_" ++ b' -> a = a' /\ b = b'.
Proof.
  intros Ha Ha' H.
  pose proof (partition_char "_"%char a b Ha) as P.
  rewrite H, (partition_char "_"%char a' b' Ha') in P.
  injection P as -> ->. now split.
Qed.

Lemma join_cons (sep p : string) (ps : list string) :
  ps <> [] -> PyStr.join sep (p :: ps) = p ++ sep ++ PyStr.join sep ps.
Proof. destruct ps; [congruence | reflexivity]. Qed.

(** Joining what was split gives the text back. *)
Lemma join_split (sep s : string) :
  sep <> "" -> PyStr.join sep (PyStr.split s sep) = s.
Proof.
  intros Hsep.
  induction s as [s IH] using (induction_ltof1 _ String.length).
  rewrite (split_partition sep s Hsep).
  destruct (PyStr.partition sep s) as [[a b]|] eqn:Hp; [|reflexivity].
  apply partition_some in Hp as [Hs _].
  rewrite join_cons by apply split_nonempty.
  rewrite IH; [now rewrite Hs|].
  unfold ltof. rewrite Hs, !str_length_app.
  destruct sep; [congruence | simpl; lia].
Qed.

Lemma get_robot_name_silent (s : string) (o : list out) (r : string) :
  Main.get_robot_name s = (o, inr r) -> o = [].
Proof.
  unfold Main.get_robot_name.
  destruct (Nat.ltb (List.length (PyStr.split s "_")) 2); [discriminate|].
  rewrite bind_ret.
  destruct (String.eqb _ _); [now intros [= <- _]|].
  unfold py_index. destruct (nth_error _ _); [now intros [= <- _] | discriminate].
Qed.

Lemma prefix_nil (s : string) : String.prefix "" s = true.
Proof. now destruct s. Qed.

Lemma prefix_refl (s : string) : String.prefix s s = true.
Proof.
  induction s as [|c s IH]; [reflexivity|]. cbn [String.prefix].
  destruct (ascii_dec c c) as [_|Hne]; [exact IH | now destruct Hne].
Qed.

Lemma prefix_app_l (a x y : string) :
  String.prefix x y = true -> String.prefix (a ++ x) (a ++ y) = true.
Proof.
  intros H. induction a as [|c a IH]; [exact H|].
  rewrite !app_cons_str. cbn [String.prefix].
  destruct (ascii_dec c c) as [_|Hne]; [exact IH | now destruct Hne].
Qed.

(** The first tokens, joined, begin the whole. *)
Lemma join_firstn_prefix (sep : string) (n : nat) (parts : list string) :
  String.prefix (PyStr.join sep (firstn n parts)) (PyStr.join sep parts) = true.
Proof.
  revert n. induction parts as [|p ps IH]; intros n.
  - destruct n; reflexivity.
  - destruct n as [|n]; [apply prefix_nil|]. cbn [firstn].
    destruct ps as [|q ps].
    + destruct n; apply prefix_refl.
    + rewrite (join_cons sep p (q :: ps)) by discriminate.
      destruct n as [|n]; [apply prefix_app|].
      rewrite (join_cons sep p (firstn (S n) (q :: ps))) by discriminate.
      apply prefix_app_l, prefix_app_l, IH.
Qed.

(** X7.  A robot name that [get_robot_name] returns is always a prefix
    of the package name it was given. *)
Theorem get_robot_name_prefix (s r : string) (o : list out) :
  Main.get_robot_name s = (o, inr r) ->
  PyStr.startswith s r = true.
Proof.
  intros H. unfold PyStr.startswith.
  pose proof (join_split "_" s ltac:(discriminate)) as Hjoin.
  destruct (PyStr.split s "_") as [|p0 [|p1 rest]] eqn:Hs.
  - exfalso. now apply (split_nonempty "_" s 0).
  - rewrite get_robot_name_refused in H by (rewrite Hs; simpl; lia).
    discriminate.
  - rewrite (get_robot_name_tokens s p0 p1 rest Hs) in H.
    injection H as _ <-. rewrite <- Hjoin.
    destruct (String.eqb (p0 ++ "_" ++ p1) "moveit_resources").
    + apply (join_firstn_prefix "_" 3 (p0 :: p1 :: rest)).
    + apply (join_firstn_prefix "_" 1 (p0 :: p1 :: rest)).
Qed.

Lemma get_robot_name_prefix_witness :
  PyStr.startswith "moveit_resources_panda_moveit_config"
                   "moveit_resources_panda" = true.
Proof.
  apply (get_robot_name_prefix "moveit_resources_panda_moveit_config"
           "moveit_resources_panda" []).
  reflexivity.
Defined.

Lemma contains_none (s : string) :
  contains s "_" = false -> no_occurrence "_" s.
Proof.
  unfold contains. intros H. apply partition_none.
  now destruct (PyStr.partition "_" s).
Qed.

(** Unless the first token is ["moveit"], the robot name is the text
    before the first underscore. *)
Lemma get_robot_name_before_underscore (robot rest : string) :
  contains robot "_" = false ->
  robot <> "moveit" ->
  Main.get_robot_name (robot ++ "_" ++ rest) = ret robot.
Proof.
  intros Hno Hne. apply contains_none in Hno.
  pose proof (split_first_token robot rest Hno) as Hs.
  pose proof (split_nonempty "_" rest 0) as Hrest.
  change (PyStr.split_from "_" 0 rest) with (PyStr.split rest "_") in Hrest.
  destruct (PyStr.split rest "_") as [|p1 tl]; [congruence|].
  rewrite (get_robot_name_tokens _ robot p1 tl Hs).
  destruct (String.eqb_spec (robot ++ "_" ++ p1) "moveit_resources")
    as [He|_]; [|reflexivity].
  exfalso. apply Hne.
  apply (first_cut_unique robot p1 "moveit" "resources"); try assumption.
  apply partition_none. reflexivity.
Qed.

(** X8.  For every robot name without an underscore, the two package
    names of the convention give the robot back:
    [<robot>_moveit_config] gives [<robot>], and
    [moveit_resources_<robot>_moveit_config] gives
    [moveit_resources_<robot>]. *)
Theorem get_robot_name_convention (robot : string) :
  contains robot "_" = false ->
  Main.get_robot_name (robot ++ "_moveit_config") = ret robot /\
  Main.get_robot_name ("moveit_resources_" ++ robot ++ "_moveit_config")
  = ret ("moveit_resources_" ++ robot).
Proof.
  intros Hno. apply contains_none in Hno. split.
  - change (robot ++ "_moveit_config") with (robot ++ "_" ++ "moveit_config").
    rewrite (get_robot_name_tokens _ robot "moveit" ["config"])
      by now rewrite (split_first_token robot "moveit_config" Hno).
    destruct (String.eqb_spec (robot ++ "_" ++ "moveit") "moveit_resources")
      as [He|_]; [|reflexivity].
    exfalso.
    destruct (first_cut_unique robot "moveit" "moveit" "resources")
      as [_ H]; try assumption; [|discriminate H].
    apply partition_none. reflexivity.
  - change ("moveit_resources_" ++ robot ++ "_moveit_config")
      with ("moveit" ++ "_" ++ "resources" ++ "_" ++ robot ++ "_" ++ "moveit_config").
    rewrite (get_robot_name_tokens _ "moveit" "resources"
               [robot; "moveit"; "config"]); [reflexivity|].
    rewrite split_first_token by (apply partition_none; reflexivity).
    rewrite split_first_token by (apply partition_none; reflexivity).
    now rewrite split_first_token.
Qed.

Lemma get_robot_name_convention_witness :
  Main.get_robot_name ("ur5e" ++ "_moveit_config") = ret "ur5e" /\
  Main.get_robot_name ("moveit_resources_" ++ "ur5e" ++ "_moveit_config")
  = ret ("moveit_resources_" ++ "ur5e").
Proof. apply (get_robot_name_convention "ur5e"). reflexivity. Defined.

(** X9.  The suffix of the package name is never looked at: when the
    text before the first underscore is not ["moveit"], that text is
    the robot name, whatever follows the underscore.  A robot name
    that itself holds an underscore is therefore cut at it. *)
Theorem get_robot_name_first_token (robot rest : string) :
  contains robot "_" = false ->
  robot <> "moveit" ->
  Main.get_robot_name (robot ++ "_" ++ rest) = ret robot.
Proof. apply get_robot_name_before_underscore. Qed.

Lemma get_robot_name_first_token_witness :
  Main.get_robot_name ("franka" ++ "_" ++ "emika_panda_moveit_config")
  = ret "franka".
Proof.
  apply (get_robot_name_first_token "franka" "emika_panda_moveit_config");
    [reflexivity | discriminate].
Defined.

(** X10.  A package name that begins with an underscore is accepted,
    and its robot name is the empty string. *)
Theorem get_robot_name_empty (rest : string) :
  Main.get_robot_name ("_" ++ rest) = ret "".
Proof.
  apply (get_robot_name_before_underscore "" rest);
    [reflexivity | discriminate].
Qed.

(** ** The launch description, in general *)

Lemma cmdline_returns (E : Env) (arg_name : string) :
  exists r, Main.get_cmdline_argument E arg_name = ret r.
Proof.
  destruct (scan_cmdline_spec (sys_argv E) arg_name) as (r & Hr & _).
  now exists r.
Qed.

Lemma load_ok_explicit (E : Env) (pkg file : string) (o : list out)
    (d : gmap string yaml) :
  Main.load_benchmarking_config E pkg file = (o, inr d) ->
  o = [] /\ exists f, d = fields_dict f.
Proof.
  intros H. pose proof (load_outcome E pkg file) as [Ho Hr].
  rewrite H in Ho, Hr. now split.
Qed.

Lemma print_inv (x : out) (o : list out) (u : unit) :
  print x = (o, inr u) -> o = [x].
Proof. now intros [= <-]. Qed.

(** Everything a successful run of [generate_launch_description] went
    through, with what it printed. *)
Lemma generate_ok_full (E : Env) (o : list out) (ld : LaunchDescription) :
  Main.generate_launch_description E = (o, inr ld) ->
  exists number f pkg robot share kinematics_file mc solver,
    Main.get_cmdline_argument E "ik_solver_number" = ret number /\
    Main.load_benchmarking_config E "ik_benchmarking" "ik_benchmarking.yaml"
    = ret (fields_dict f) /\
    moveit_config_pkg f = YStr pkg /\
    Main.get_robot_name pkg = ret robot /\
    MoveItConfigsBuilder E robot = inr tt /\
    get_package_share_directory E pkg = inr share /\
    fields_dict f !! fst (Main.solver_keys number)
    = Some (YStr kinematics_file) /\
    to_moveit_configs E robot (os_path_join share ["config"; kinematics_file])
    = inr mc /\
    fields_dict f !! snd (Main.solver_keys number) = Some solver /\
    o = [RunningFor solver] /\
    ld = [ NodeAction (server_node mc (move_group f) (sample_size f));
           TimerAction 2
             [ NodeAction
                 (client_node mc (move_group f) (sample_size f) solver) ];
           Main.ik_solver_arg ].
Proof.
  unfold Main.generate_launch_description. intros H.
  inv_bind H as Hcmd number. inv_bind H as Hload cfg. inv_bind H as Hpkg pkg.
  inv_bind H as Hstr pkg_str. inv_bind H as Hrobot robot.
  destruct (Main.solver_keys number)
    as [kinematics_file_key ik_solver_key] eqn:Hkeys.
  inv_bind H as Hbuilder u. inv_bind H as Hpkg' pkg'.
  inv_bind H as Hstr' pkg_str'. inv_bind H as Hshare share.
  inv_bind H as Hkin kin. inv_bind H as Hkstr kin_str.
  inv_bind H as Hmc mc. inv_bind H as Hmg mg. inv_bind H as Hss ss.
  inv_bind H as Hserver server.
  inv_bind H as Hsolver solver. inv_bind H as Hprint u'.
  inv_bind H as Hmg' mg'. inv_bind H as Hss' ss'.
  inv_bind H as Hsolver' solver'.
  inv_bind H as Hclient client.
  apply make_node_ok_inv in Hserver as (-> & -> & Hserver),
    Hclient as (-> & -> & Hclient).
  destruct (cmdline_returns E "ik_solver_number") as (r & Hr).
  rewrite Hr in Hcmd. injection Hcmd as <- <-.
  destruct (load_ok_explicit _ _ _ _ _ Hload) as [-> (f & ->)].
  pose proof (get_robot_name_silent _ _ _ Hrobot) as ->.
  apply py_getitem_ok_inv in Hpkg as [Hpkg ->], Hpkg' as [Hpkg' ->],
    Hkin as [Hkin ->], Hmg as [Hmg ->], Hss as [Hss ->],
    Hsolver as [Hsolver ->], Hmg' as [Hmg' ->], Hss' as [Hss' ->],
    Hsolver' as [Hsolver' ->].
  apply split_receiver_ok_inv in Hstr as [-> ->].
  apply as_str_ok_inv in Hstr' as [-> ->], Hkstr as [-> ->].
  apply lift_ok_inv in Hshare as [Hshare ->], Hmc as [Hmc ->],
    Hbuilder as [Hbuilder ->].
  apply print_inv in Hprint as ->.
  rewrite Hpkg in Hpkg'. injection Hpkg' as <-.
  rewrite Hmg in Hmg'. injection Hmg' as <-.
  rewrite Hss in Hss'. injection Hss' as <-.
  rewrite Hsolver in Hsolver'. injection Hsolver' as <-.
  injection H as <- <-.
  destruct (fields_dict_holds f)
    as (_ & Fpkg & Fmg & Fss & _).
  rewrite Fpkg in Hpkg. injection Hpkg as Hpkg.
  rewrite Fmg in Hmg. injection Hmg as <-.
  rewrite Fss in Hss. injection Hss as <-.
  destruct u.
  exists r, f, pkg_str, robot, share, kin_str, mc, solver.
  rewrite Hr, Hkeys. cbn [fst snd].
  repeat split; assumption.
Qed.

(** C7.  In a launch description that [generate_launch_description]
    returns, the server node and the client node are both passed the
    three dictionaries (robot description, semantic description,
    kinematics) of the MoveIt configuration that was built for the
    inferred robot name and the kinematics file of the chosen solver,
    and the [move_group] and [sample_size] of the configuration; the
    client is passed [ik_solver] as well, with the solver name the
    configuration has under the chosen key, and the dictionary the
    script builds for the server has no [ik_solver]: the server is
    passed none unless the MoveIt dictionaries carry one. *)
Theorem launch_parameters (E : Env) (o : list out) (ld : LaunchDescription) :
  Main.generate_launch_description E = (o, inr ld) ->
  exists number cfg pkg robot share kinematics_file mc mg ss solver
         server client,
    snd (Main.get_cmdline_argument E "ik_solver_number") = inr number /\
    snd (Main.load_benchmarking_config E "ik_benchmarking" "ik_benchmarking.yaml")
    = inr cfg /\
    cfg !! "moveit_config_pkg" = Some (YStr pkg) /\
    Main.get_robot_name pkg = ret robot /\
    get_package_share_directory E pkg = inr share /\
    cfg !! fst (Main.solver_keys number) = Some (YStr kinematics_file) /\
    to_moveit_configs E robot (os_path_join share ["config"; kinematics_file])
    = inr mc /\
    cfg !! "move_group" = Some mg /\
    cfg !! "sample_size" = Some ss /\
    cfg !! snd (Main.solver_keys number) = Some solver /\
    ld = [ NodeAction server; TimerAction 2 [NodeAction client];
           Main.ik_solver_arg ] /\
    executable server = "ik_benchmarking_server" /\
    executable client = "ik_benchmarking_client" /\
    parameters server =
      [ robot_description mc; robot_description_semantic mc;
        robot_description_kinematics mc;
        list_to_map [ ("move_group", mg); ("sample_size", ss) ] ] /\
    parameters client =
      [ robot_description mc; robot_description_semantic mc;
        robot_description_kinematics mc;
        list_to_map [ ("move_group", mg); ("sample_size", ss);
                      ("ik_solver", solver) ] ] /\
    (forall n, n = server \/ n = client ->
       has_parameters n (robot_description mc) /\
       has_parameters n (robot_description_semantic mc) /\
       has_parameters n (robot_description_kinematics mc) /\
       receives n "move_group" mg /\
       receives n "sample_size" ss) /\
    receives client "ik_solver" solver /\
    (robot_description mc !! "ik_solver" = None ->
     robot_description_semantic mc !! "ik_solver" = None ->
     robot_description_kinematics mc !! "ik_solver" = None ->
     forall v, ~ receives server "ik_solver" v).
Proof.
  intros H.
  destruct (generate_ok_full E o ld H)
    as (number & f & pkg & robot & share & kin & mc & solver
        & Hcmd & Hload & Hpkg & Hrobot & _ & Hshare & Hkin & Hmc
        & Hsolver & _ & ->).
  destruct (fields_dict_holds f) as (_ & Fpkg & Fmg & Fss & _).
  rewrite Hpkg in Fpkg.
  eexists number, (fields_dict f), pkg, robot, share, kin, mc,
    (move_group f), (sample_size f), solver, _, _.
  rewrite Hcmd, Hload. cbn [snd ret].
  do 11 (split; [first [eassumption | reflexivity]|]).
  do 4 (split; [reflexivity|]).
  unfold has_parameters, receives, server_node, client_node.
  cbn [parameters].
  split; [|split].
  - intros n [-> | ->]; cbn [parameters In]; repeat split; auto;
      eexists; (split; [do 3 right; left; reflexivity|]);
      vm_compute; reflexivity.
  - eexists. split; [do 3 right; left; reflexivity|]. vm_compute. reflexivity.
  - intros H1 H2 H3 v (d & Hd & Hv). cbn [In] in Hd.
    destruct Hd as [<- | [<- | [<- | [<- | []]]]]; try congruence.
    vm_compute in Hv. discriminate.
Qed.

Lemma launch_parameters_witness :
  Main.generate_launch_description (Demo.env Demo.argv Demo.config)
  = ([RunningFor (YStr "TRAC_IK")], inr Demo.description) /\
  exists solver, receives Demo.client "ik_solver" solver.
Proof.
  assert (H : Main.generate_launch_description (Demo.env Demo.argv Demo.config)
              = ([RunningFor (YStr "TRAC_IK")], inr Demo.description))
    by (vm_compute; reflexivity).
  split; [exact H|].
  destruct (launch_parameters _ _ _ H)
    as (number & cfg & pkg & robot & share & kin & mc & mg & ss & solver
        & server & client
        & _ & _ & _ & _ & _ & _ & _ & _ & _ & _ & Hld & _ & _ & _ & _
        & _ & Hrecv & _).
  unfold Demo.description in Hld. injection Hld as _ <-.
  exists solver. exact Hrecv.
Defined.

Lemma solver_file_key_inv (n : string) :
  In ("ik_solver_" ++ n ++ "_kinematics_file") nine_fields ->
  In n ["1"; "2"; "3"].
Proof.
  unfold nine_fields. cbn [In]. intros H.
  repeat (destruct H as [H | H];
          [ pose proof (f_equal String.length H) as Hlen;
            rewrite !str_length_app in Hlen; simpl in Hlen;
            try lia;
            destruct n as [|c [|c' n']]; simpl in Hlen; try lia;
            rewrite !app_cons_str, !app_nil_str in H;
            injection H as <-; simpl; tauto
          | ]).
  destruct H.
Qed.

Lemma fields_dict_file_key (f : Fields) (n : string) (v : yaml) :
  fields_dict f !! fst (Main.solver_keys n) = Some v ->
  In n ["1"; "2"; "3"].
Proof.
  intros H. apply fields_dict_keys in H. unfold Main.solver_keys in H.
  destruct (PyStr.gt n "0"); cbn [fst] in H.
  - now apply solver_file_key_inv.
  - exfalso. unfold nine_fields in H. cbn [In] in H.
    repeat (destruct H as [H | H]; [discriminate H|]). destruct H.
Qed.

Lemma fields_dict_solver (f : Fields) (n : string) :
  In n ["1"; "2"; "3"] ->
  fields_dict f !! fst (Main.solver_keys n) = Some (solver_file f n) /\
  fields_dict f !! snd (Main.solver_keys n) = Some (solver_name f n).
Proof.
  destruct f. intros [<- | [<- | [<- | []]]]; split; vm_compute; reflexivity.
Qed.

Ltac generate_prefix Hcmd Hload Hpkg Hrobot Hbuilder Hshare :=
  unfold Main.generate_launch_description;
  rewrite Hcmd, bind_ret, Hload, bind_ret;
  unfold py_getitem at 1; rewrite Hpkg, bind_ret;
  cbn [split_receiver]; rewrite bind_ret, Hrobot, bind_ret;
  destruct (Main.solver_keys _) as [? ?]; cbn [fst snd] in *;
  rewrite Hbuilder, bind_lift_ok;
  unfold py_getitem at 1; rewrite Hpkg, bind_ret;
  cbn [as_str]; rewrite bind_ret, Hshare, bind_lift_ok.

(** The run of [generate_launch_description] once the command line is
    read, the configuration loaded, the robot name inferred, the
    builder made and the package found: what the lookup of the
    kinematics file decides. *)
Lemma generate_after_share (E : Env) (n : string) (d : gmap string yaml)
    (pkg robot share : string) :
  Main.get_cmdline_argument E "ik_solver_number" = ret n ->
  Main.load_benchmarking_config E "ik_benchmarking" "ik_benchmarking.yaml"
  = ret d ->
  d !! "moveit_config_pkg" = Some (YStr pkg) ->
  Main.get_robot_name pkg = ret robot ->
  MoveItConfigsBuilder E robot = inr tt ->
  get_package_share_directory E pkg = inr share ->
  (d !! fst (Main.solver_keys n) = None ->
   Main.generate_launch_description E
   = raise (KeyError (fst (Main.solver_keys n)))) /\
  (forall v, d !! fst (Main.solver_keys n) = Some v -> is_str v = false ->
   Main.generate_launch_description E = raise TypeError) /\
  (forall kinematics_file mc mg ss solver,
     d !! fst (Main.solver_keys n) = Some (YStr kinematics_file) ->
     to_moveit_configs E robot (os_path_join share ["config"; kinematics_file])
     = inr mc ->
     d !! "move_group" = Some mg ->
     d !! "sample_size" = Some ss ->
     d !! snd (Main.solver_keys n) = Some solver ->
     Node_init E "ik_benchmarking" "ik_benchmarking_server" "screen"
       (server_parameters mc mg ss) = inr tt ->
     Node_init E "ik_benchmarking" "ik_benchmarking_client" "screen"
       (client_parameters mc mg ss solver) = inr tt ->
     Main.generate_launch_description E
     = ([RunningFor solver],
        inr [ NodeAction (server_node mc mg ss);
              TimerAction 2 [NodeAction (client_node mc mg ss solver)];
              Main.ik_solver_arg ])).
Proof.
  intros Hcmd Hload Hpkg Hrobot Hbuilder Hshare.
  split; [|split].
  - intros Hk. generate_prefix Hcmd Hload Hpkg Hrobot Hbuilder Hshare.
    unfold py_getitem at 1. now rewrite Hk.
  - intros v Hk Hv. generate_prefix Hcmd Hload Hpkg Hrobot Hbuilder Hshare.
    unfold py_getitem at 1. rewrite Hk, bind_ret. now destruct v.
  - intros kinematics_file mc mg ss solver Hk Hmc Hmg Hss Hsolver Hsn Hcn.
    generate_prefix Hcmd Hload Hpkg Hrobot Hbuilder Hshare.
    unfold server_parameters in Hsn. unfold client_parameters in Hcn.
    unfold py_getitem, Main.make_node. rewrite Hk, bind_ret. cbn [as_str].
    rewrite bind_ret, Hmc, bind_lift_ok, Hmg, bind_ret, Hss, bind_ret.
    rewrite Hsn, bind_lift_ok, bind_ret.
    rewrite Hsolver, !bind_ret, Hcn, bind_lift_ok, !bind_ret. reflexivity.
Qed.

(** X11.  [generate_launch_description] returns a launch description
    only when the value it reads for [ik_solver_number] is exactly
    ["1"], ["2"] or ["3"]. *)
Theorem launch_needs_known_solver (E : Env) (o : list out)
    (ld : LaunchDescription) :
  Main.generate_launch_description E = (o, inr ld) ->
  exists n, Main.get_cmdline_argument E "ik_solver_number" = ret n /\
            In n ["1"; "2"; "3"].
Proof.
  intros H.
  destruct (generate_ok_full E o ld H)
    as (n & f & pkg & robot & share & kin & mc & solver
        & Hcmd & _ & _ & _ & _ & _ & Hkin & _).
  exists n. split; [exact Hcmd|]. now apply fields_dict_file_key in Hkin.
Qed.

Lemma launch_needs_known_solver_witness :
  exists n,
    Main.get_cmdline_argument (Demo.env Demo.argv Demo.config)
      "ik_solver_number" = ret n /\
    In n ["1"; "2"; "3"].
Proof.
  apply (launch_needs_known_solver (Demo.env Demo.argv Demo.config)
           [RunningFor (YStr "TRAC_IK")] Demo.description).
  vm_compute. reflexivity.
Defined.

(** X12.  A run of [generate_launch_description] that returns a launch
    description has printed exactly one line, the one that announces
    the solver, and the solver it announces is the [ik_solver] the
    client node is passed. *)
Theorem launch_announces_solver (E : Env) (o : list out)
    (ld : LaunchDescription) :
  Main.generate_launch_description E = (o, inr ld) ->
  exists solver server client,
    o = [RunningFor solver] /\
    ld = [ NodeAction server; TimerAction 2 [NodeAction client];
           Main.ik_solver_arg ] /\
    receives client "ik_solver" solver.
Proof.
  intros H.
  destruct (generate_ok_full E o ld H)
    as (n & f & pkg & robot & share & kin & mc & solver
        & _ & _ & _ & _ & _ & _ & _ & _ & _ & -> & ->).
  eexists solver, _, _. split; [reflexivity|]. split; [reflexivity|].
  eexists. split; [do 3 right; left; reflexivity|].
  vm_compute. reflexivity.
Qed.

Lemma launch_announces_solver_witness :
  exists solver server client,
    [RunningFor (YStr "TRAC_IK")] = [RunningFor solver] /\
    Demo.description
    = [ NodeAction server; TimerAction 2 [NodeAction client];
        Main.ik_solver_arg ] /\
    receives client "ik_solver" solver.
Proof.
  apply (launch_announces_solver (Demo.env Demo.argv Demo.config)).
  vm_compute. reflexivity.
Defined.

(** X13.  With a solver number of ["1"], ["2"] or ["3"], a loaded
    configuration whose package name is a string that
    [get_robot_name] accepts and whose kinematics file for that solver
    is a string, and collaborators that answer (the builder, the
    package index, and the [Node] constructor accepting the parameters
    of both nodes), [generate_launch_description] prints the line for
    that solver and
    returns the server node, the client node under a timer of 2
    seconds and the argument declaration; the MoveIt configuration is
    built for the inferred robot from [<share>/config/<kinematics
    file>], and solver name and kinematics file are those of the same
    solver number. *)
Theorem generate_launch_description_ok (E : Env) (n : string)
    (d : gmap string yaml) (f : Fields) (pkg robot share kinematics_file : string)
    (mc : MoveItConfigs) :
  Main.get_cmdline_argument E "ik_solver_number" = ret n ->
  In n ["1"; "2"; "3"] ->
  Main.load_benchmarking_config E "ik_benchmarking" "ik_benchmarking.yaml"
  = ret d ->
  moveit_config_pkg f = YStr pkg ->
  Main.get_robot_name pkg = ret robot ->
  MoveItConfigsBuilder E robot = inr tt ->
  get_package_share_directory E pkg = inr share ->
  holds_exactly d f ->
  solver_file f n = YStr kinematics_file ->
  to_moveit_configs E robot (os_path_join share ["config"; kinematics_file])
  = inr mc ->
  Node_init E "ik_benchmarking" "ik_benchmarking_server" "screen"
    (server_parameters mc (move_group f) (sample_size f)) = inr tt ->
  Node_init E "ik_benchmarking" "ik_benchmarking_client" "screen"
    (client_parameters mc (move_group f) (sample_size f) (solver_name f n))
  = inr tt ->
  Main.generate_launch_description E
  = ([RunningFor (solver_name f n)],
     inr [ NodeAction (server_node mc (move_group f) (sample_size f));
           TimerAction 2
             [ NodeAction (client_node mc (move_group f) (sample_size f)
                             (solver_name f n)) ];
           Main.ik_solver_arg ]).
Proof.
  intros Hcmd Hn Hload Hpkg Hrobot Hbuilder Hshare Hd Hfile Hmc Hsn Hcn.
  destruct Hd as (_ & Dpkg & Dmg & Dss & D1 & D2 & D3 & K1 & K2 & K3).
  rewrite Hpkg in Dpkg.
  destruct (generate_after_share E n d pkg robot share
              Hcmd Hload Dpkg Hrobot Hbuilder Hshare) as (_ & _ & Hok).
  apply (Hok kinematics_file mc); try assumption.
  - rewrite <- Hfile.
    destruct Hn as [<- | [<- | [<- | []]]]; [exact K1 | exact K2 | exact K3].
  - destruct Hn as [<- | [<- | [<- | []]]]; [exact D1 | exact D2 | exact D3].
Qed.

Lemma generate_launch_description_ok_witness :
  Main.generate_launch_description (Demo.env Demo.argv Demo.config)
  = ([RunningFor (solver_name Demo.fields "2")],
     inr [ NodeAction (server_node Demo.moveit (move_group Demo.fields)
                         (sample_size Demo.fields));
           TimerAction 2
             [ NodeAction (client_node Demo.moveit (move_group Demo.fields)
                             (sample_size Demo.fields)
                             (solver_name Demo.fields "2")) ];
           Main.ik_solver_arg ]).
Proof.
  apply (generate_launch_description_ok (Demo.env Demo.argv Demo.config)
           "2" Demo.loaded Demo.fields
           "moveit_resources_panda_moveit_config" "moveit_resources_panda"
           "/opt/ros/share/moveit_resources_panda_moveit_config"
           "trac_ik_kinematics.yaml" Demo.moveit);
    try reflexivity.
  - simpl. tauto.
  - repeat split; vm_compute; reflexivity.
Defined.

(** X14.  When the loaded package name is a string without an
    underscore, [generate_launch_description] prints the message of
    [get_robot_name] and exits with status 1, whatever the command
    line is and before the MoveIt builder is asked anything. *)
Theorem launch_exits_on_one_token_package (E : Env) (d : gmap string yaml)
    (pkg : string) :
  Main.load_benchmarking_config E "ik_benchmarking" "ik_benchmarking.yaml"
  = ret d ->
  d !! "moveit_config_pkg" = Some (YStr pkg) ->
  contains pkg "_" = false ->
  Main.generate_launch_description E = launch_refused.
Proof.
  intros Hload Hpkg Hno.
  destruct (cmdline_returns E "ik_solver_number") as (n & Hcmd).
  unfold Main.generate_launch_description.
  rewrite Hcmd, bind_ret, Hload, bind_ret.
  unfold py_getitem at 1. rewrite Hpkg, bind_ret.
  cbn [split_receiver]. rewrite bind_ret.
  rewrite get_robot_name_refused; [reflexivity|].
  rewrite (split_partition "_" pkg) by discriminate.
  unfold contains in Hno.
  destruct (PyStr.partition "_" pkg); [discriminate | simpl; lia].
Qed.

Lemma launch_exits_on_one_token_package_witness :
  Main.generate_launch_description (Demo.env Demo.argv Cases.config_one_token)
  = launch_refused.
Proof.
  apply (launch_exits_on_one_token_package
           (Demo.env Demo.argv Cases.config_one_token)
           Cases.loaded_one_token "panda"); reflexivity.
Defined.

(** X15.  When [load_benchmarking_config] raises,
    [generate_launch_description] raises the same error and prints
    nothing: reading the command line comes first and cannot fail. *)
Theorem launch_fails_as_loader (E : Env) (e : exn) :
  snd (Main.load_benchmarking_config E "ik_benchmarking" "ik_benchmarking.yaml")
  = inl e ->
  Main.generate_launch_description E = raise e.
Proof.
  intros H.
  destruct (cmdline_returns E "ik_solver_number") as (n & Hcmd).
  destruct (load_outcome E "ik_benchmarking" "ik_benchmarking.yaml") as [Ho _].
  destruct (Main.load_benchmarking_config E "ik_benchmarking"
              "ik_benchmarking.yaml") as [o r] eqn:Hload.
  simpl in H, Ho. subst.
  unfold Main.generate_launch_description.
  now rewrite Hcmd, bind_ret, Hload.
Qed.

Lemma launch_fails_as_loader_witness :
  Main.generate_launch_description
    (Demo.env Demo.argv (YMap (delete "move_group" Demo.top)))
  = raise (missing_key_error "move_group").
Proof.
  apply (launch_fails_as_loader
           (Demo.env Demo.argv (YMap (delete "move_group" Demo.top)))).
  reflexivity.
Defined.

(** X16.  When the kinematics file of the chosen solver is not a string
    (the entry has no [kinematics_file], so the loader stored [None]),
    [generate_launch_description] raises [TypeError] at the path join,
    after the builder was made and the package found. *)
Theorem launch_type_error_without_file (E : Env) (n : string)
    (d : gmap string yaml) (pkg robot share : string) (v : yaml) :
  Main.get_cmdline_argument E "ik_solver_number" = ret n ->
  Main.load_benchmarking_config E "ik_benchmarking" "ik_benchmarking.yaml"
  = ret d ->
  d !! "moveit_config_pkg" = Some (YStr pkg) ->
  Main.get_robot_name pkg = ret robot ->
  MoveItConfigsBuilder E robot = inr tt ->
  get_package_share_directory E pkg = inr share ->
  d !! fst (Main.solver_keys n) = Some v ->
  is_str v = false ->
  Main.generate_launch_description E = raise TypeError.
Proof.
  intros Hcmd Hload Hpkg Hrobot Hbuilder Hshare Hk Hv.
  destruct (generate_after_share E n d pkg robot share
              Hcmd Hload Hpkg Hrobot Hbuilder Hshare) as (_ & Hty & _).
  now apply (Hty v).
Qed.

Lemma launch_type_error_without_file_witness :
  Main.generate_launch_description
    (Demo.env Demo.argv Cases.config_without_file) = raise TypeError.
Proof.
  apply (launch_type_error_without_file
           (Demo.env Demo.argv Cases.config_without_file)
           "2" Cases.loaded_without_file
           "moveit_resources_panda_moveit_config" "moveit_resources_panda"
           "/opt/ros/share/moveit_resources_panda_moveit_config" YNull);
    reflexivity.
Defined.

(** X17.  When the loaded [moveit_config_pkg] is not a string,
    [generate_launch_description] fails where [get_robot_name] calls
    [split] on it: with [TypeError] when the value is [bytes], which
    have the method but refuse a string separator, and with
    [AttributeError] for every other value, which has no [split]. *)
Theorem launch_error_on_package_type (E : Env) (d : gmap string yaml)
    (v : yaml) :
  Main.load_benchmarking_config E "ik_benchmarking" "ik_benchmarking.yaml"
  = ret d ->
  d !! "moveit_config_pkg" = Some v ->
  is_str v = false ->
  Main.generate_launch_description E
  = raise (if is_bytes v then TypeError else AttributeError).
Proof.
  intros Hload Hpkg Hv.
  destruct (cmdline_returns E "ik_solver_number") as (n & Hcmd).
  unfold Main.generate_launch_description.
  rewrite Hcmd, bind_ret, Hload, bind_ret.
  unfold py_getitem at 1. rewrite Hpkg, bind_ret.
  destruct v; try reflexivity. discriminate Hv.
Qed.

Lemma launch_error_on_package_type_witness :
  Main.generate_launch_description
    (Demo.env Demo.argv (YMap (<["moveit_config_pkg" := YInt 7]> Demo.top)))
  = raise AttributeError /\
  Main.generate_launch_description
    (Demo.env Demo.argv
       (YMap (<["moveit_config_pkg" := YBytes "panda"]> Demo.top)))
  = raise TypeError.
Proof.
  split.
  - apply (launch_error_on_package_type
             (Demo.env Demo.argv
                (YMap (<["moveit_config_pkg" := YInt 7]> Demo.top)))
             (<["moveit_config_pkg" := YInt 7]> Demo.loaded) (YInt 7));
      reflexivity.
  - apply (launch_error_on_package_type
             (Demo.env Demo.argv
                (YMap (<["moveit_config_pkg" := YBytes "panda"]> Demo.top)))
             (<["moveit_config_pkg" := YBytes "panda"]> Demo.loaded)
             (YBytes "panda"));
      reflexivity.
Defined.

(** X18.  With a solver number other than ["1"], ["2"] and ["3"] (["4"],
    ["10"], ["abc"], the default ["0"]), once the configuration is
    loaded, the robot name inferred and the package found,
    [generate_launch_description] raises [KeyError] on the key it built
    for the kinematics file: [ik_solver_<n>_kinematics_file] when the
    value sorts after ["0"], the empty key otherwise. *)
Theorem launch_key_error_on_unknown_solver (E : Env) (n : string)
    (d : gmap string yaml) (pkg robot share : string) :
  Main.get_cmdline_argument E "ik_solver_number" = ret n ->
  ~ In n ["1"; "2"; "3"] ->
  Main.load_benchmarking_config E "ik_benchmarking" "ik_benchmarking.yaml"
  = ret d ->
  d !! "moveit_config_pkg" = Some (YStr pkg) ->
  Main.get_robot_name pkg = ret robot ->
  MoveItConfigsBuilder E robot = inr tt ->
  get_package_share_directory E pkg = inr share ->
  Main.generate_launch_description E
  = raise (KeyError (if PyStr.gt n "0"
                     then "ik_solver_" ++ n ++ "_kinematics_file"
                     else "")).
Proof.
  intros Hcmd Hn Hload Hpkg Hrobot Hbuilder Hshare.
  destruct (generate_after_share E n d pkg robot share
              Hcmd Hload Hpkg Hrobot Hbuilder Hshare) as (Hkey & _ & _).
  replace (if PyStr.gt n "0"
           then "ik_solver_" ++ n ++ "_kinematics_file" else "")
    with (fst (Main.solver_keys n))
    by (unfold Main.solver_keys; now destruct (PyStr.gt n "0")).
  apply Hkey.
  destruct (load_ok_explicit _ _ _ _ _ Hload) as [_ (f & ->)].
  destruct (fields_dict f !! fst (Main.solver_keys n)) as [v|] eqn:Hk;
    [|reflexivity].
  exfalso. apply Hn. now apply (fields_dict_file_key f n v).
Qed.

Lemma launch_key_error_on_unknown_solver_witness :
  Main.generate_launch_description
    (Demo.env ["launch"; "ik_solver_number:=4"] Demo.config)
  = raise (KeyError "ik_solver_4_kinematics_file").
Proof.
  apply (launch_key_error_on_unknown_solver
           (Demo.env ["launch"; "ik_solver_number:=4"] Demo.config)
           "4" Demo.loaded
           "moveit_resources_panda_moveit_config" "moveit_resources_panda"
           "/opt/ros/share/moveit_resources_panda_moveit_config");
    try reflexivity.
  simpl. intros [H | [H | [H | []]]]; discriminate H.
Defined.

(** ** The clients script *)

Lemma arg_value_index (arg p : string) :
  PyStr.startswith arg (p ++ ":=") = true ->
  py_index (PyStr.split arg ":=") 1 = ret (arg_value arg).
Proof.
  intros H.
  destruct (split_second ":=" arg p ltac:(discriminate) H) as (v & Hv & _).
  unfold py_index, arg_value in *.
  destruct (nth_error (PyStr.split arg ":=") 1) as [x|] eqn:Hx;
    [|discriminate].
  now rewrite (nth_error_nth _ _ "" Hx).
Qed.

Lemma first_token_index (s : string) :
  Clients.robot_name_of s = ret (first_token s).
Proof.
  unfold Clients.robot_name_of, first_token, py_index.
  pose proof (split_nonempty "_" s 0) as Hne.
  change (PyStr.split_from "_" 0 s) with (PyStr.split s "_") in Hne.
  now destruct (PyStr.split s "_").
Qed.

Lemma prefixes_exclusive (arg : string) :
  PyStr.startswith arg "moveit_config_pkg:=" = true ->
  PyStr.startswith arg "kinematics_file:=" = false.
Proof.
  unfold PyStr.startswith. destruct arg as [|c arg]; [discriminate|].
  cbn [String.prefix].
  destruct (ascii_dec "m" c) as [<-|]; [|discriminate].
  intros _. now destruct (ascii_dec "k" "m").
Qed.

Lemma scan_step_eq (st : Clients.Names) (arg : string) :
  Clients.scan_step st arg =
  ret (if PyStr.startswith arg "moveit_config_pkg:="
       then Clients.mkNames (first_token (arg_value arg)) (arg_value arg)
              (Clients.kinematics_file_name st)
       else if PyStr.startswith arg "kinematics_file:="
       then Clients.mkNames (Clients.robot_name st)
              (Clients.moveit_config_pkg_name st) (arg_value arg)
       else st).
Proof.
  unfold Clients.scan_step.
  destruct (PyStr.startswith arg "moveit_config_pkg:=") eqn:Hp.
  - rewrite (arg_value_index arg "moveit_config_pkg" Hp), bind_ret.
    now rewrite first_token_index, bind_ret.
  - destruct (PyStr.startswith arg "kinematics_file:=") eqn:Hk; [|reflexivity].
    now rewrite (arg_value_index arg "kinematics_file" Hk), bind_ret.
Qed.

Lemma last_given_cons (prefix arg : string) (args : list string) :
  last_given prefix (arg :: args) =
  match last_given prefix args with
  | Some a => Some a
  | None => if PyStr.startswith arg prefix then Some arg else None
  end.
Proof.
  unfold last_given. cbn [rev].
  induction (rev args) as [|x l IH]; [reflexivity|].
  cbn [app find]. now destruct (PyStr.startswith x prefix).
Qed.

Lemma scan_args_eq (st : Clients.Names) (args : list string) :
  Clients.scan_args st args =
  ret (Clients.mkNames
         (match last_given "moveit_config_pkg:=" args with
          | Some a => first_token (arg_value a)
          | None => Clients.robot_name st
          end)
         (match last_given "moveit_config_pkg:=" args with
          | Some a => arg_value a
          | None => Clients.moveit_config_pkg_name st
          end)
         (match last_given "kinematics_file:=" args with
          | Some a => arg_value a
          | None => Clients.kinematics_file_name st
          end)).
Proof.
  revert st. induction args as [|arg rest IH]; intros st.
  - now destruct st.
  - cbn [Clients.scan_args]. rewrite scan_step_eq, bind_ret, IH.
    rewrite !last_given_cons.
    destruct (last_given "moveit_config_pkg:=" rest),
             (last_given "kinematics_file:=" rest);
      destruct (PyStr.startswith arg "moveit_config_pkg:=") eqn:Hp;
      try rewrite (prefixes_exclusive arg Hp);
      try reflexivity;
      destruct (PyStr.startswith arg "kinematics_file:="); reflexivity.
Qed.

(** X19.  The loop of the clients script over the command line never
    fails, and the last entry wins: the package name is the value of
    the last [moveit_config_pkg:=] entry and the robot name its first
    token (["iiwa_moveit_config"] and ["iiwa"] when there is none), the
    kinematics file is the value of the last [kinematics_file:=] entry
    (["kinematics.yaml"] when there is none). *)
Theorem clients_scan_last_wins (args : list string) :
  Clients.scan_args Clients.default_names args =
  ret (Clients.mkNames
         (match last_given "moveit_config_pkg:=" args with
          | Some a => first_token (arg_value a)
          | None => "iiwa"
          end)
         (match last_given "moveit_config_pkg:=" args with
          | Some a => arg_value a
          | None => "iiwa_moveit_config"
          end)
         (match last_given "kinematics_file:=" args with
          | Some a => arg_value a
          | None => "kinematics.yaml"
          end)).
Proof. apply scan_args_eq. Qed.

(** X20.  Whatever the command line, the robot name the clients script
    ends with is the first token of the package name it ends with. *)
Theorem clients_scan_invariant (args : list string) :
  exists names,
    Clients.scan_args Clients.default_names args = ret names /\
    Clients.robot_name names
    = first_token (Clients.moveit_config_pkg_name names).
Proof.
  eexists. split; [apply scan_args_eq|]. cbn.
  now destruct (last_given "moveit_config_pkg:=" args).
Qed.

(** X21.  Resolving the MoveIt configuration in the clients script
    prints nothing and raises nothing of its own: an error is one that
    the builder, the package index or the configuration build gave, and
    a result was built for the scanned robot name from
    [<share>/config/<kinematics file>] of the scanned package. *)
Theorem clients_resolve_outcomes (E : Env) :
  fst (Clients.resolve_moveit_config E) = [] /\
  match snd (Clients.resolve_moveit_config E) with
  | inl e => external_error E e
  | inr (names, mc) =>
      Clients.scan_args Clients.default_names (sys_argv E) = ret names /\
      exists share,
        get_package_share_directory E (Clients.moveit_config_pkg_name names)
        = inr share /\
        to_moveit_configs E (Clients.robot_name names)
          (os_path_join share ["config"; Clients.kinematics_file_name names])
        = inr mc
  end.
Proof.
  unfold Clients.resolve_moveit_config, external_error.
  rewrite scan_args_eq, bind_ret.
  set (names := Clients.mkNames _ _ _).
  destruct (MoveItConfigsBuilder E (Clients.robot_name names))
    as [e|u] eqn:Hb.
  { split; [reflexivity|]. left. eexists. exact Hb. }
  rewrite bind_lift_ok.
  destruct (get_package_share_directory E (Clients.moveit_config_pkg_name names))
    as [e|share] eqn:Hs.
  { split; [reflexivity|]. right; left. eexists. exact Hs. }
  rewrite bind_lift_ok.
  destruct (to_moveit_configs E (Clients.robot_name names)
              (os_path_join share ["config"; Clients.kinematics_file_name names]))
    as [e|mc] eqn:Hm.
  { split; [reflexivity|]. right; right. eexists _, _. exact Hm. }
  rewrite bind_lift_ok. split; [reflexivity|].
  cbn [snd ret]. split; [reflexivity|]. exists share. now split.
Qed.
